(** * SmartExam AI: the generation pipeline of [services/geminiService.ts]
      and its caller [generateExam] in [App.tsx]

    The development embeds the orchestration function
    [analyzeImagesAndGenerateQuestions] and the handler [generateExam] as
    functions over an explicit trace of host interactions.  The host (the
    browser's [FileReader], the generative service behind
    [ai.models.generateContent], [process.env]) is a record of oracles, so
    every statement quantifies over all deterministic test doubles.

    Conventions of the embedding:
    - a JavaScript string is a [string]; [undefined] is [None];
    - a [number] is an integer (in the range where [Number::toString] prints
      the plain decimal numeral) or [NaN], which is what [parseInt(value, 10)]
      in [handleSettingChange] can store in a settings record;
    - [await] is sequencing: an awaited host operation settles, and the
      continuation runs after the settlement has been recorded;
    - [window.aistudio.openSelectKey()] is taken as it is declared: present,
      with a promise that fulfils. *)

From Stdlib Require Import String Ascii List ZArith Lia Bool Arith.
From Stdlib.Strings Require Import Byte.
From Stdlib Require Import DecimalString.
From Stdlib Require QArith_base.
Import ListNotations.

Local Open Scope string_scope.
Local Open Scope list_scope.

(* ===================================================================== *)
(** ** JavaScript values used by the pipeline *)
(* ===================================================================== *)

Module Js.

(** The double quote and the line feed of the template literals, and the
    separator of [split(',')]. *)
Definition dquote : string := String (ascii_of_nat 34) EmptyString.
Definition nl : string := String (ascii_of_nat 10) EmptyString.
Definition comma : ascii := ascii_of_nat 44.

(** [s.includes(needle)]: [needle] occurs in [s] as a contiguous run. *)
Fixpoint includes (s needle : string) : bool :=
  if String.prefix needle s then true
  else match s with
       | EmptyString => false
       | String _ rest => includes rest needle
       end.

(** Truthiness of a value that is a string or [undefined]. *)
Definition truthy (v : option string) : bool :=
  match v with
  | Some (String _ _) => true
  | _ => false
  end.

(** [v || dflt] for such a value and a string default. *)
Definition or_else (v : option string) (dflt : string) : string :=
  match v with
  | Some (String c r) => String c r
  | _ => dflt
  end.

(** [s.split(sep)] for a one-character separator. *)
Fixpoint split (sep : ascii) (s : string) : list string :=
  match s with
  | EmptyString => [EmptyString]
  | String c rest =>
      match split sep rest with
      | [] => [String c EmptyString]
      | seg :: segs =>
          if Ascii.eqb c sep then EmptyString :: seg :: segs
          else String c seg :: segs
      end
  end.

(** [a[i]] on an array: [undefined] out of range. *)
Definition index {A : Type} (a : list A) (i : nat) : option A := nth_error a i.

(** The [number] values a settings record holds. *)
Inductive number : Type :=
| Int (z : Z)
| NaN.

(** [Number::toString], as used by template-literal interpolation. *)
Definition toString (n : number) : string :=
  match n with
  | Int z => NilZero.string_of_int (Z.to_int z)
  | NaN => "NaN"
  end.

End Js.

(* ===================================================================== *)
(** ** The host's base64 transcription (RFC 4648), used by
       [FileReader.readAsDataURL] *)
(* ===================================================================== *)

Module Base64.

(** Six bits, most significant first. *)
Definition sextet : Type := (bool * bool * bool * bool * bool * bool)%type.

Definition alphabet : string :=
  "ABCDEFGHIJKLMNOPQRSTUVWXYZabcdefghijklmnopqrstuvwxyz0123456789+/".

Definition pad : ascii := ascii_of_nat 61.

Definition bit (b : bool) (w : nat) : nat := if b then w else 0.

Definition sextet_index (s : sextet) : nat :=
  let '(b5, b4, b3, b2, b1, b0) := s in
  bit b5 32 + bit b4 16 + bit b3 8 + bit b2 4 + bit b1 2 + bit b0 1.


Definition char_of_sextet (s : sextet) : ascii :=
  match String.get (sextet_index s) alphabet with
  | Some c => c
  | None => pad
  end.



(** Three bytes are four sextets; [Byte.to_bits] lists bit 0 first. *)
Definition sextets3 (a b c : byte) : sextet * sextet * sextet * sextet :=
  let '(a0, (a1, (a2, (a3, (a4, (a5, (a6, a7))))))) := Byte.to_bits a in
  let '(b0, (b1, (b2, (b3, (b4, (b5, (b6, b7))))))) := Byte.to_bits b in
  let '(c0, (c1, (c2, (c3, (c4, (c5, (c6, c7))))))) := Byte.to_bits c in
  ((a7, a6, a5, a4, a3, a2),
   (a1, a0, b7, b6, b5, b4),
   (b3, b2, b1, b0, c7, c6),
   (c5, c4, c3, c2, c1, c0)).



Fixpoint encode (bs : list byte) : string :=
  match bs with
  | [] => EmptyString
  | [a] =>
      let '(s1, s2, _, _) := sextets3 a x00 x00 in
      String (char_of_sextet s1) (String (char_of_sextet s2)
        (String pad (String pad EmptyString)))
  | [a; b] =>
      let '(s1, s2, s3, _) := sextets3 a b x00 in
      String (char_of_sextet s1) (String (char_of_sextet s2)
        (String (char_of_sextet s3) (String pad EmptyString)))
  | a :: b :: c :: rest =>
      let '(s1, s2, s3, s4) := sextets3 a b c in
      String (char_of_sextet s1) (String (char_of_sextet s2)
        (String (char_of_sextet s3) (String (char_of_sextet s4)
          (encode rest))))
  end.



End Base64.

(* ===================================================================== *)
(** ** [types.ts] *)
(* ===================================================================== *)

Record ExamSettings : Type := {
  topic : string;
  className : string;
  board : string;
  studentName : string;
  language : string;
  totalMarks : Js.number;
  duration : Js.number;
  mcqCount : Js.number;
  shortCount : Js.number;
  longCount : Js.number
}.

Inductive QuestionType : Type := mcq | short | long.

Record Question : Type := {
  q_type : QuestionType;
  q_text : string;
  options : option (list string);
  correctAnswer : option string
}.

(** [htmlContent] is declared a string; it stores what the orchestration
    function returned, which at run time can be [undefined]. *)
Record GeneratedExam : Type := {
  htmlContent : option string
}.

(* ===================================================================== *)
(** ** Host objects, thrown values, events *)
(* ===================================================================== *)

(** A [File]: its name, its [type] (the MIME type) and its bytes. *)
Record File : Type := {
  name : string;
  type : string;
  bytes : list byte
}.

(** The event a [FileReader] hands to [onerror]. *)
Record ProgressEvent : Type := {
  ev_type : string;
  ev_loaded : Z;
  ev_total : Z
}.

(** What can be thrown or be the reason of a rejection. *)
Inductive Thrown : Type :=
| Error (message : string)               (* [new Error(message)] *)
| TypeError (message : string)           (* raised by the engine *)
| ServiceError (message : option string) (status : Z)
                                         (* a rejection of the service call:
                                            an object whose [message] is a
                                            string or missing *)
| ReaderEvent (ev : ProgressEvent).      (* [reject(error)] in [onerror] *)

(** The property read [e.message]. *)
Definition message_of (e : Thrown) : option string :=
  match e with
  | Error m => Some m
  | TypeError m => Some m
  | ServiceError m _ => m
  | ReaderEvent _ => None
  end.

(** Completion of a computation: a value, or a throw. *)
Inductive Completion (A : Type) : Type :=
| Normal (a : A)
| Abrupt (e : Thrown).
Arguments Normal {A} a.
Arguments Abrupt {A} e.

(** A promise is modelled by when and how it settles; times order the
    settlements of promises that are pending together. *)
Record Promise (A : Type) : Type := {
  settles_at : nat;
  completion : Completion A
}.
Arguments settles_at {A} _.
Arguments completion {A} _.

Record InlineData : Type := {
  mimeType : string;
  data : option string
}.

Record ImagePart : Type := {
  inlineData : InlineData
}.

(** An element of [parts]: [ImagePart | { text: string }]. *)
Inductive Part : Type :=
| TextPart (text : string)
| InlinePart (p : ImagePart).

(** [contents]: [{ parts: ... }] in the analysis call, an array of parts in
    the generation call. *)
Inductive Contents : Type :=
| ContentParts (parts : list Part)
| ContentList (items : list Part).

Record GenerationConfig : Type := {
  maxOutputTokens : Z;
  temperature : option QArith_base.Q;
  topP : option QArith_base.Q;
  topK : option Z
}.

Record GenerateContentParameters : Type := {
  model : string;
  contents : Contents;
  config : GenerationConfig
}.

Record GenerateContentResponse : Type := {
  text : option string
}.

Record GoogleGenAI : Type := {
  apiKey : option string
}.

(** Interactions with the host, in the order they happen. *)
Inductive Event : Type :=
| ReadAsDataURL (file : File)
| GenerateContent (req : GenerateContentParameters)
| Settled (outcome : Completion GenerateContentResponse)
| ConsoleError (label : string) (e : Thrown)
| ConsoleLog (label : string) (msg : string)
| OpenSelectKey.

Definition Trace : Type := list Event.

(** What a [FileReader] does with a file: when it finishes, and with
    [onload] (and [reader.result]) or [onerror]. *)
Inductive ReadResult : Type :=
| OnLoad (result : string)
| OnError (ev : ProgressEvent).

Record Read : Type := {
  finished_at : nat;
  outcome : ReadResult
}.

(** The host: every oracle sees the interactions so far. *)
Record Host : Type := {
  API_KEY : option string;
  fileReader : Trace -> File -> Read;
  generateContent :
    Trace -> GoogleGenAI -> GenerateContentParameters ->
    Completion GenerateContentResponse
}.

(* ===================================================================== *)
(** ** Computations with a trace and exceptions *)
(* ===================================================================== *)

Definition Effect (A : Type) : Type := Trace -> Completion A * Trace.

Definition ret {A : Type} (a : A) : Effect A := fun t => (Normal a, t).

Definition throw {A : Type} (e : Thrown) : Effect A := fun t => (Abrupt e, t).

Definition bind {A B : Type} (m : Effect A) (k : A -> Effect B) : Effect B :=
  fun t =>
    match m t with
    | (Normal a, t') => k a t'
    | (Abrupt e, t') => (Abrupt e, t')
    end.

(** [try { m } catch (error) { h error }] *)
Definition try_catch {A : Type} (m : Effect A) (h : Thrown -> Effect A) : Effect A :=
  fun t =>
    match m t with
    | (Normal a, t') => (Normal a, t')
    | (Abrupt e, t') => h e t'
    end.

Definition emit (e : Event) : Effect unit := fun t => (Normal tt, t ++ [e]).

Declare Scope effect_scope.
Delimit Scope effect_scope with effect.
Notation "x <- m ;; k" := (bind m (fun x => k))
  (at level 61, m at next level, right associativity) : effect_scope.
Notation "m ;; k" := (bind m (fun _ => k))
  (at level 61, right associativity) : effect_scope.
Local Open Scope effect_scope.

(** [array.map(f)] with an effectful callback: the calls run in order. *)
Fixpoint array_map {A B : Type} (f : A -> Effect B) (a : list A) : Effect (list B) :=
  match a with
  | [] => ret []
  | x :: rest =>
      y <- f x ;;
      ys <- array_map f rest ;;
      ret (y :: ys)
  end.

(** The rejection that [Promise.all] reports: the earliest one; of two that
    settle together, the one whose promise was created first. *)
Fixpoint first_rejection {A : Type} (ps : list (Promise A)) : option (nat * Thrown) :=
  match ps with
  | [] => None
  | p :: rest =>
      match completion p, first_rejection rest with
      | Normal _, r => r
      | Abrupt e, None => Some (settles_at p, e)
      | Abrupt e, Some (t', e') =>
          if Nat.ltb t' (settles_at p) then Some (t', e') else Some (settles_at p, e)
      end
  end.

Fixpoint fulfilled_values {A : Type} (ps : list (Promise A)) : list A :=
  match ps with
  | [] => []
  | p :: rest =>
      match completion p with
      | Normal a => a :: fulfilled_values rest
      | Abrupt _ => fulfilled_values rest
      end
  end.

(** [await Promise.all(ps)]: the values in the order of [ps] when every
    promise fulfils, the first rejection otherwise. *)
Definition await_all {A : Type} (ps : list (Promise A)) : Effect (list A) :=
  match first_rejection ps with
  | Some (_, e) => throw e
  | None => ret (fulfilled_values ps)
  end.

(* ===================================================================== *)
(** ** [services/geminiService.ts] *)
(* ===================================================================== *)

Module GeminiService.

Section WithHost.

Variable host : Host.

(** [function getGeminiClient()] *)
Definition getGeminiClient : Effect GoogleGenAI :=
  if negb (Js.truthy (API_KEY host)) then
    throw (Error "API_KEY is not defined in the environment variables.")
  else
    ret {| apiKey := API_KEY host |}.

(** [ai.models.generateContent(params)], awaited: the request is issued, the
    service answers, the settlement is observed. *)
Definition models_generateContent (ai : GoogleGenAI)
    (params : GenerateContentParameters) : Effect GenerateContentResponse :=
  fun t =>
    let t1 := t ++ [GenerateContent params] in
    let answer := generateContent host t1 ai params in
    (answer, t1 ++ [Settled answer]).

(** [window.aistudio.openSelectKey()], awaited. *)
Definition openSelectKey : Effect unit := emit OpenSelectKey.

Definition console_error (label : string) (e : Thrown) : Effect unit :=
  emit (ConsoleError label e).

Definition console_log (label : string) (msg : string) : Effect unit :=
  emit (ConsoleLog label msg).

(** The callback of [images.map]: the reader is created and started, and the
    promise of the part is returned.  [onload] resolves with
    [reader.result.split(',')[1]], [onerror] rejects with its event. *)
Definition encodeImage (file : File) : Effect (Promise ImagePart) :=
  fun t =>
    let r := fileReader host t file in
    let base64 : Completion (option string) :=
      match outcome r with
      | OnLoad result => Normal (Js.index (Js.split Js.comma result) 1)
      | OnError error => Abrupt (ReaderEvent error)
      end in
    (Normal {| settles_at := finished_at r;
               completion :=
                 match base64 with
                 | Normal b =>
                     Normal {| inlineData := {| mimeType := type file; data := b |} |}
                 | Abrupt e => Abrupt e
                 end |},
     t ++ [ReadAsDataURL file]).

(** Step 1: [await Promise.all(images.map(async (file) => ...))] *)
Definition encodeImages (images : list File) : Effect (list ImagePart) :=
  promises <- array_map encodeImage images ;;
  await_all promises.

Definition analysisPrompt (settings : ExamSettings) : string :=
  "You are an expert educator. Analyze the provided images of textbook pages and exercises. Identify the main subject, specific topic, key concepts, and common question formats (e.g., definitions, problem-solving, diagrams, true/false) relevant to generating an exam paper for Class " ++ className settings ++ ", Board " ++ board settings ++ ". Return this information as a concise text summary of about 200 words, clearly stating the main topic and key areas covered.".

Definition analysisRequest (settings : ExamSettings) (imageParts : list ImagePart)
    : GenerateContentParameters :=
  let partsForAnalysis := TextPart (analysisPrompt settings) :: map InlinePart imageParts in
  {| model := "gemini-2.5-flash-image";
     contents := ContentParts partsForAnalysis;
     config := {| maxOutputTokens := 500;
                  temperature := None; topP := None; topK := None |} |}.

Definition fallbackSummary : string := "No specific insights extracted from images.".

Definition generationPrompt (settings : ExamSettings) (analysisSummary : string) : string :=
  "Based on the following topic: " ++ Js.dquote ++ topic settings ++ Js.dquote ++ ", class " ++ Js.dquote ++ className settings ++ Js.dquote ++ ", board " ++ Js.dquote ++ board settings ++ Js.dquote ++ ", and the following analysis of textbook content: " ++ Js.dquote ++ analysisSummary ++ Js.dquote ++ ", generate an exam paper with the specified number of questions for each type." ++ Js.nl ++
  Js.nl ++
  "    **Instructions:**" ++ Js.nl ++
  "    1.  Generate exactly " ++ Js.toString (mcqCount settings) ++ " Multiple Choice Questions. Each MCQ must have 4 distinct options (A, B, C, D) and explicitly state the correct answer at the end of the question (e.g., 'Correct Answer: A')." ++ Js.nl ++
  "    2.  Generate exactly " ++ Js.toString (shortCount settings) ++ " Short Answer Questions." ++ Js.nl ++
  "    3.  Generate exactly " ++ Js.toString (longCount settings) ++ " Long Answer Questions." ++ Js.nl ++
  "    4.  Ensure questions are relevant to the provided topic and insights, and are appropriate for the specified class and board." ++ Js.nl ++
  "    5.  Format the output clearly, separating each question type with a heading." ++ Js.nl ++
  "    6.  Use the specified language: " ++ language settings ++ "." ++ Js.nl ++
  Js.nl ++
  "    **Example Format:**" ++ Js.nl ++
  "    ## Multiple Choice Questions (MCQs)" ++ Js.nl ++
  "    1.  What is [concept A]?" ++ Js.nl ++
  "        A) Option 1" ++ Js.nl ++
  "        B) Option 2" ++ Js.nl ++
  "        C) Option 3" ++ Js.nl ++
  "        D) Option 4" ++ Js.nl ++
  "        Correct Answer: B" ++ Js.nl ++
  Js.nl ++
  "    ## Short Answer Questions" ++ Js.nl ++
  "    1.  Explain [concept B]." ++ Js.nl ++
  Js.nl ++
  "    ## Long Answer Questions" ++ Js.nl ++
  "    1.  Discuss [topic C] in detail." ++ Js.nl ++
  "    ".

Definition generationRequest (settings : ExamSettings) (analysisSummary : string)
    : GenerateContentParameters :=
  {| model := "gemini-2.5-pro";
     contents := ContentList [TextPart (generationPrompt settings analysisSummary)];
     config := {| maxOutputTokens := 4096;
                  temperature := Some (QArith_base.Qmake 7 10);
                  topP := Some (QArith_base.Qmake 95 100);
                  topK := Some 64%Z |} |}.

(** [error.message && error.message.includes("Requested entity was not found.")] *)
Definition entity_not_found (error : Thrown) : bool :=
  match message_of error with
  | Some m => Js.truthy (Some m) && Js.includes m "Requested entity was not found."
  | None => false
  end.

Definition keyErrorMessage : string :=
  "API key might be invalid or not selected. Please select a valid key.".

Definition genericGenerationMessage : string :=
  "Failed to generate questions. Please check your prompt or try again.".

Definition analysisFailureMessage : string :=
  "Failed to analyze images. Please try again.".

(** Step 2 (A): the analysis call and its [catch]. *)
Definition analyze (ai : GoogleGenAI) (settings : ExamSettings)
    (imageParts : list ImagePart) : Effect GenerateContentResponse :=
  try_catch
    (models_generateContent ai (analysisRequest settings imageParts))
    (fun error =>
       console_error "Error during image analysis:" error ;;
       throw (Error analysisFailureMessage)).

(** Step 3 (B): the generation call and its [catch]. *)
Definition generate (ai : GoogleGenAI) (settings : ExamSettings)
    (analysisSummary : string) : Effect GenerateContentResponse :=
  try_catch
    (models_generateContent ai (generationRequest settings analysisSummary))
    (fun error =>
       console_error "Error during question generation:" error ;;
       if entity_not_found error then
         openSelectKey ;;
         throw (Error keyErrorMessage)
       else
         throw (Error (Js.or_else (message_of error) genericGenerationMessage))).

(** [export async function analyzeImagesAndGenerateQuestions(images, settings)] *)
Definition analyzeImagesAndGenerateQuestions (images : list File)
    (settings : ExamSettings) : Effect (option string) :=
  ai <- getGeminiClient ;;
  imageParts <- encodeImages images ;;
  analysisResponse <- analyze ai settings imageParts ;;
  let analysisSummary := Js.or_else (text analysisResponse) fallbackSummary in
  console_log "Image Analysis Summary:" analysisSummary ;;
  generationResponse <- generate ai settings analysisSummary ;;
  ret (text generationResponse).

End WithHost.

End GeminiService.

(* ===================================================================== *)
(** ** [App.tsx]: the component state and [generateExam] *)
(* ===================================================================== *)

Module App.

(** The [useState] cells and the [useRef] cell of the component. *)
Record State : Type := {
  settings : ExamSettings;
  uploadedImages : list File;
  loading : bool;
  error : option string;
  generatedExam : option GeneratedExam;
  showApiKeyPrompt : bool;
  examHtmlRef : option string
}.

Definition setLoading (v : bool) (s : State) : State :=
  {| settings := settings s; uploadedImages := uploadedImages s;
     loading := v; error := error s; generatedExam := generatedExam s;
     showApiKeyPrompt := showApiKeyPrompt s; examHtmlRef := examHtmlRef s |}.

Definition setError (v : option string) (s : State) : State :=
  {| settings := settings s; uploadedImages := uploadedImages s;
     loading := loading s; error := v; generatedExam := generatedExam s;
     showApiKeyPrompt := showApiKeyPrompt s; examHtmlRef := examHtmlRef s |}.

Definition setGeneratedExam (v : option GeneratedExam) (s : State) : State :=
  {| settings := settings s; uploadedImages := uploadedImages s;
     loading := loading s; error := error s; generatedExam := v;
     showApiKeyPrompt := showApiKeyPrompt s; examHtmlRef := examHtmlRef s |}.

Definition setShowApiKeyPrompt (v : bool) (s : State) : State :=
  {| settings := settings s; uploadedImages := uploadedImages s;
     loading := loading s; error := error s; generatedExam := generatedExam s;
     showApiKeyPrompt := v; examHtmlRef := examHtmlRef s |}.

Definition setExamHtmlRef (v : option string) (s : State) : State :=
  {| settings := settings s; uploadedImages := uploadedImages s;
     loading := loading s; error := error s; generatedExam := generatedExam s;
     showApiKeyPrompt := showApiKeyPrompt s; examHtmlRef := v |}.

Definition initialSettings : ExamSettings :=
  {| topic := "Biology - Cell Structure";
     className := "Grade 9";
     board := "CBSE";
     studentName := EmptyString;
     language := "English";
     totalMarks := Js.Int 50;
     duration := Js.Int 60;
     mcqCount := Js.Int 5;
     shortCount := Js.Int 3;
     longCount := Js.Int 2 |}.

Definition uploadMessage : string := "Please upload at least one image.".

Section WithService.

(** The import [analyzeImagesAndGenerateQuestions] of the component. *)
Variable analyzeImagesAndGenerateQuestions :
  list File -> ExamSettings -> Effect (option string).

(** [const generateExam = useCallback(async () => { ... })]: the completion
    of the handler, the state after its updates, and the trace. *)
Definition generateExam (s : State) (t : Trace) : Completion unit * State * Trace :=
  let s := setError None s in
  let s := setLoading true s in
  let s := setGeneratedExam None s in
  if Nat.eqb (length (uploadedImages s)) 0 then
    let s := setError (Some uploadMessage) s in
    let s := setLoading false s in
    (Normal tt, s, t)
  else
    match analyzeImagesAndGenerateQuestions (uploadedImages s) (settings s) t with
    | (Normal examContent, t') =>
        let s := setExamHtmlRef examContent s in
        let s := setGeneratedExam (Some {| htmlContent := examContent |}) s in
        (* finally *)
        let s := setLoading false s in
        (Normal tt, s, t')
    | (Abrupt err, t') =>
        let t' := t' ++ [ConsoleError "Failed to generate exam:" err] in
        match message_of err with
        | None =>
            (* [err.message.includes] on [undefined]; finally *)
            let s := setLoading false s in
            (Abrupt (TypeError "Cannot read properties of undefined (reading 'includes')"),
             s, t')
        | Some m =>
            let s := if Js.includes m "API key might be invalid"
                     then setShowApiKeyPrompt true s else s in
            let s := setError (Some (Js.or_else (Some m)
                       "An unexpected error occurred during exam generation.")) s in
            (* finally *)
            let s := setLoading false s in
            (Normal tt, s, t')
        end
    end.

End WithService.

Definition setUploadedImages (v : list File) (s : State) : State :=
  {| settings := settings s; uploadedImages := v;
     loading := loading s; error := error s; generatedExam := generatedExam s;
     showApiKeyPrompt := showApiKeyPrompt s; examHtmlRef := examHtmlRef s |}.

(** [handleImageUpload]: [e.target.files] is a [FileList] or [null];
    [Array.from] lists its files. *)
Definition handleImageUpload (files : option (list File)) (s : State) : State :=
  match files with
  | Some fileList => setUploadedImages fileList s
  | None => s
  end.

(** [handleDrop]: after [e.preventDefault()], the same with
    [e.dataTransfer.files]. *)
Definition handleDrop (files : option (list File)) (s : State) : State :=
  match files with
  | Some fileList => setUploadedImages fileList s
  | None => s
  end.

(** What [clearImages] touches in the document: the value of the element
    with id [image-upload], when there is such an element. *)
Record Document : Type := {
  image_upload_value : option string
}.

(** [clearImages] *)
Definition clearImages (s : State) (d : Document) : State * Document :=
  let s := setUploadedImages [] s in
  match image_upload_value d with
  | Some _ => (s, {| image_upload_value := Some EmptyString |})
  | None => (s, d)
  end.

(** Calls on [window]. *)
Inductive WindowCall : Type := Print.

(** [printExam]: [if (generatedExam) window.print()] *)
Definition printExam (s : State) : list WindowCall :=
  match generatedExam s with
  | Some _ => [Print]
  | None => []
  end.

(** The Generate button: [disabled={loading || uploadedImages.length === 0}] *)
Definition generateDisabled (s : State) : bool :=
  loading s || Nat.eqb (length (uploadedImages s)) 0.

End App.

(* ===================================================================== *)
(** ** Vocabulary of the statements *)
(* ===================================================================== *)

Module Observe.

Import GeminiService.

Fixpoint has_char (c : ascii) (s : string) : bool :=
  match s with
  | EmptyString => false
  | String d rest => Ascii.eqb d c || has_char c rest
  end.

(** RFC 2397, [data:[<mediatype>][;base64],<data>]: the data URL with which
    a [FileReader] loads a blob.  The header ends at the first comma. *)
Definition dataURL (mediatype : string) (content : list byte) : string :=
  "data:" ++ mediatype ++ ";base64" ++ String Js.comma (Base64.encode content).

(** A read that succeeds with the data URL of the file's bytes. *)
Definition loads_dataURL (file : File) (r : Read) : Prop :=
  exists mediatype,
    has_char Js.comma mediatype = false /\
    outcome r = OnLoad (dataURL mediatype (bytes file)).

(** The part built from a file and the [reader.result] of its read. *)
Definition partFrom (file : File) (result : string) : ImagePart :=
  {| inlineData := {| mimeType := type file;
                      data := Js.index (Js.split Js.comma result) 1 |} |}.

(** The encoded part of a file. *)
Definition partOf (file : File) : ImagePart :=
  {| inlineData := {| mimeType := type file;
                      data := Some (Base64.encode (bytes file)) |} |}.

Definition is_service_event (e : Event) : bool :=
  match e with
  | GenerateContent _ | Settled _ => true
  | _ => false
  end.

Definition is_openSelectKey (e : Event) : bool :=
  match e with
  | OpenSelectKey => true
  | _ => false
  end.

(** The interactions with the service in a trace, and the number of
    credential prompts. *)
Definition service_events (t : Trace) : Trace := filter is_service_event t.

Definition openSelectKey_calls (t : Trace) : nat :=
  length (filter is_openSelectKey t).

(** Two settings records that agree on the fields the prompts read. *)
Definition same_prompt_fields (s1 s2 : ExamSettings) : Prop :=
  topic s1 = topic s2 /\ className s1 = className s2 /\ board s1 = board s2 /\
  language s1 = language s2 /\ mcqCount s1 = mcqCount s2 /\
  shortCount s1 = shortCount s2 /\ longCount s1 = longCount s2.

(** A read that succeeds, whatever [reader.result] is. *)
Definition loads (r : Read) : Prop := exists result, outcome r = OnLoad result.

Section WithHost.

Variable host : Host.

(** What the readers started by [images.map] do, in order: each sees the
    reads started before it. *)
Fixpoint reads (t : Trace) (images : list File) : list Read :=
  match images with
  | [] => []
  | file :: rest => fileReader host t file :: reads (t ++ [ReadAsDataURL file]) rest
  end.

(** The promise [encodeImage] returns for a file whose reader does [r]. *)
Definition promiseOf (file : File) (r : Read) : Promise ImagePart :=
  {| settles_at := finished_at r;
     completion :=
       match outcome r with
       | OnLoad result =>
           Normal {| inlineData :=
                       {| mimeType := type file;
                          data := Js.index (Js.split Js.comma result) 1 |} |}
       | OnError error => Abrupt (ReaderEvent error)
       end |}.

Fixpoint promises (t : Trace) (images : list File) : list (Promise ImagePart) :=
  match images with
  | [] => []
  | file :: rest =>
      promiseOf file (fileReader host t file) :: promises (t ++ [ReadAsDataURL file]) rest
  end.

Definition client : GoogleGenAI := {| apiKey := API_KEY host |}.

(** The service's answer to the analysis request issued after trace [t1]. *)
Definition analysisAnswer (settings : ExamSettings) (imageParts : list ImagePart)
    (t1 : Trace) : Completion GenerateContentResponse :=
  generateContent host (t1 ++ [GenerateContent (analysisRequest settings imageParts)])
    client (analysisRequest settings imageParts).

(** [analysisResponse.text || "No specific insights extracted from images."] *)
Definition summaryOf (r : GenerateContentResponse) : string :=
  Js.or_else (text r) fallbackSummary.

(** The trace once the generation request has been issued, the analysis
    having been answered with [r]. *)
Definition uptoGeneration (settings : ExamSettings) (imageParts : list ImagePart)
    (t1 : Trace) (r : GenerateContentResponse) : Trace :=
  t1 ++ [GenerateContent (analysisRequest settings imageParts);
         Settled (Normal r);
         ConsoleLog "Image Analysis Summary:" (summaryOf r);
         GenerateContent (generationRequest settings (summaryOf r))].

(** The service's answer to that generation request. *)
Definition generationAnswer (settings : ExamSettings) (imageParts : list ImagePart)
    (t1 : Trace) (r : GenerateContentResponse) : Completion GenerateContentResponse :=
  generateContent host (uptoGeneration settings imageParts t1 r)
    client (generationRequest settings (summaryOf r)).

End WithHost.

End Observe.

(* ===================================================================== *)
(** ** Sample inputs *)
(* ===================================================================== *)

Module Samples.

Import GeminiService Observe.

Definition zeroSettings : ExamSettings :=
  {| topic := topic App.initialSettings;
     className := className App.initialSettings;
     board := board App.initialSettings;
     studentName := studentName App.initialSettings;
     language := language App.initialSettings;
     totalMarks := totalMarks App.initialSettings;
     duration := duration App.initialSettings;
     mcqCount := Js.Int 0;
     shortCount := Js.Int 0;
     longCount := Js.Int 0 |}.

Definition page1 : File :=
  {| name := "page1.png"; type := "image/png"; bytes := [x89; x50; x4e; x47] |}.

Definition page2 : File :=
  {| name := "page2.jpg"; type := "image/jpeg"; bytes := [xff; xd8] |}.

Definition errorEvent : ProgressEvent :=
  {| ev_type := "error"; ev_loaded := 0; ev_total := 2 |}.

(** A reader that loads every file. *)
Definition loadingReader (t : Trace) (file : File) : Read :=
  {| finished_at := length t; outcome := OnLoad (dataURL (type file) (bytes file)) |}.

(** A reader that fails on JPEG files. *)
Definition pickyReader (t : Trace) (file : File) : Read :=
  {| finished_at := length t;
     outcome := if String.eqb (type file) "image/jpeg" then OnError errorEvent
                else OnLoad (dataURL (type file) (bytes file)) |}.

(** A service that answers the analysis with [a] and the generation with [g]. *)
Definition scripted (a g : Completion GenerateContentResponse)
    (t : Trace) (ai : GoogleGenAI) (req : GenerateContentParameters)
    : Completion GenerateContentResponse :=
  if String.eqb (model req) "gemini-2.5-pro" then g else a.

Definition hostWith (reader : Trace -> File -> Read)
    (a g : Completion GenerateContentResponse) : Host :=
  {| API_KEY := Some "key"; fileReader := reader; generateContent := scripted a g |}.

Definition summaryResponse : GenerateContentResponse := {| text := Some "Cells and organelles." |}.
Definition emptyResponse : GenerateContentResponse := {| text := Some EmptyString |}.
Definition examResponse : GenerateContentResponse := {| text := Some "## Multiple Choice Questions (MCQs)" |}.

Definition goodHost : Host :=
  hostWith loadingReader (Normal summaryResponse) (Normal examResponse).

Definition pickyHost : Host :=
  hostWith pickyReader (Normal summaryResponse) (Normal examResponse).


Definition quota : Thrown := ServiceError (Some "Quota exceeded.") 429.

Definition noMessage : Thrown := ServiceError None 500.

(** The analysis answers with an empty text. *)
Definition silentHost : Host :=
  hostWith loadingReader (Normal emptyResponse) (Normal examResponse).

(** The analysis is rejected. *)
Definition analysisDownHost : Host :=
  hostWith loadingReader (Abrupt quota) (Normal examResponse).


Definition quotaHost : Host :=
  hostWith loadingReader (Normal summaryResponse) (Abrupt quota).

Definition noMessageHost : Host :=
  hostWith loadingReader (Normal summaryResponse) (Abrupt noMessage).

(** The generation answers without a text. *)
Definition noTextHost : Host :=
  hostWith loadingReader (Normal summaryResponse) (Normal {| text := None |}).

Definition noKeyHost : Host :=
  {| API_KEY := None; fileReader := loadingReader;
     generateContent := scripted (Normal {| text := None |}) (Normal {| text := None |}) |}.

(** A record that differs from the initial one in the fields no prompt
    reads. *)
Definition otherStudent : ExamSettings :=
  {| topic := topic App.initialSettings;
     className := className App.initialSettings;
     board := board App.initialSettings;
     studentName := "A. Student";
     language := language App.initialSettings;
     totalMarks := Js.Int 100;
     duration := Js.Int 90;
     mcqCount := mcqCount App.initialSettings;
     shortCount := shortCount App.initialSettings;
     longCount := longCount App.initialSettings |}.

(** A reader whose result has no comma. *)
Definition bareReader (t : Trace) (file : File) : Read :=
  {| finished_at := length t; outcome := OnLoad "data:" |}.

Definition bareHost : Host :=
  hostWith bareReader (Normal summaryResponse) (Normal examResponse).

(** A state with one uploaded image, and one that shows an earlier exam. *)
Definition readyState : App.State :=
  {| App.settings := App.initialSettings;
     App.uploadedImages := [page1];
     App.loading := false;
     App.error := None;
     App.generatedExam := None;
     App.showApiKeyPrompt := false;
     App.examHtmlRef := None |}.

Definition shownState : App.State :=
  {| App.settings := App.initialSettings;
     App.uploadedImages := [page1; page2];
     App.loading := false;
     App.error := None;
     App.generatedExam := Some {| htmlContent := Some "## An earlier exam" |};
     App.showApiKeyPrompt := true;
     App.examHtmlRef := Some "## An earlier exam" |}.

Definition emptyState : App.State :=
  {| App.settings := App.initialSettings;
     App.uploadedImages := [];
     App.loading := false;
     App.error := None;
     App.generatedExam := None;
     App.showApiKeyPrompt := false;
     App.examHtmlRef := None |}.

End Samples.

(* ===================================================================== *)
(** ** Facts about [includes] and [split] *)
(* ===================================================================== *)

Module JsFacts.

Lemma append_assoc (a b c : string) : ((a ++ b) ++ c = a ++ (b ++ c))%string.
Proof. induction a as [|x a IH]; simpl; [reflexivity | rewrite IH; reflexivity]. Qed.

Lemma prefix_app_self (n r : string) : String.prefix n (n ++ r) = true.
Proof.
  induction n as [|c n IH]; simpl.
  - destruct r; reflexivity.
  - destruct (ascii_dec c c) as [_|ne]; [exact IH | contradiction].
Qed.

Lemma prefix_app_common (a n s : string) :
  String.prefix n s = true -> String.prefix (a ++ n) (a ++ s) = true.
Proof.
  intros H. induction a as [|c a IH]; simpl; [exact H|].
  destruct (ascii_dec c c) as [_|ne]; [exact IH | contradiction].
Qed.

Lemma includes_unfold (s n : string) :
  Js.includes s n =
  if String.prefix n s then true
  else match s with
       | EmptyString => false
       | String _ rest => Js.includes rest n
       end.
Proof. destruct s; reflexivity. Qed.

Lemma includes_prefix (s n : string) :
  String.prefix n s = true -> Js.includes s n = true.
Proof. intros H. rewrite includes_unfold, H. reflexivity. Qed.

Lemma includes_cons (c : ascii) (s n : string) :
  Js.includes s n = true -> Js.includes (String c s) n = true.
Proof.
  intros H. rewrite includes_unfold, H.
  destruct (String.prefix n (String c s)); reflexivity.
Qed.

Lemma includes_app_r (a s n : string) :
  Js.includes s n = true -> Js.includes (a ++ s) n = true.
Proof.
  intros H. induction a as [|c a IH]; simpl append; [exact H|].
  apply includes_cons, IH.
Qed.

(** A needle that sits between a left context and a right context. *)
Lemma includes_middle (a n r : string) : Js.includes (a ++ n ++ r) n = true.
Proof. apply includes_app_r, includes_prefix, prefix_app_self. Qed.

Lemma includes_empty_needle (n : string) :
  n <> EmptyString -> Js.includes EmptyString n = false.
Proof. intros H. destruct n; [contradiction | reflexivity]. Qed.

End JsFacts.

(* ===================================================================== *)
(** ** The generation prompt *)
(* ===================================================================== *)

Module PromptFacts.

Import GeminiService JsFacts Samples.

(** The needle starts right here: compare the literal part, cancel the
    interpolated value, compare the rest. *)
Ltac needle_here :=
  apply includes_prefix; cbn;
  first [ reflexivity | apply prefix_app_common; reflexivity ].

(** Walk through the template: over a character of a literal, or over an
    interpolated value. *)
Ltac find_needle :=
  cbn;
  repeat first [ solve [needle_here] | apply includes_cons | apply includes_app_r ].

Lemma toString_zero : Js.toString (Js.Int 0) = "0".
Proof. reflexivity. Qed.

Lemma toString_examples :
  Js.toString (Js.Int 5) = "5" /\ Js.toString (Js.Int 3) = "3" /\
  Js.toString (Js.Int 2) = "2" /\ Js.toString (Js.Int 120) = "120".
Proof. repeat split. Qed.

Lemma prompt_includes (settings : ExamSettings) (analysisSummary : string) :
  Js.includes (generationPrompt settings analysisSummary)
    ("exactly " ++ Js.toString (mcqCount settings) ++ " Multiple Choice Questions") = true /\
  Js.includes (generationPrompt settings analysisSummary)
    ("exactly " ++ Js.toString (shortCount settings) ++ " Short Answer Questions") = true /\
  Js.includes (generationPrompt settings analysisSummary)
    ("exactly " ++ Js.toString (longCount settings) ++ " Long Answer Questions") = true /\
  Js.includes (generationPrompt settings analysisSummary)
    ("Use the specified language: " ++ language settings ++ ".") = true.
Proof.
  unfold generationPrompt.
  repeat split; find_needle.
Qed.


(** The prompt for the initial settings of the form, and for a record whose
    three counts are zero. *)
Example prompt_initialSettings (analysisSummary : string) :
  let prompt := generationPrompt App.initialSettings analysisSummary in
  Js.includes prompt "exactly 5 Multiple Choice Questions" = true /\
  Js.includes prompt "exactly 3 Short Answer Questions" = true /\
  Js.includes prompt "exactly 2 Long Answer Questions" = true /\
  Js.includes prompt "Use the specified language: English." = true.
Proof.
  exact (prompt_includes App.initialSettings analysisSummary).
Qed.

Example prompt_zero_counts (analysisSummary : string) :
  let prompt := generationPrompt zeroSettings analysisSummary in
  Js.includes prompt "exactly 0 Multiple Choice Questions" = true /\
  Js.includes prompt "exactly 0 Short Answer Questions" = true /\
  Js.includes prompt "exactly 0 Long Answer Questions" = true.
Proof.
  pose proof (prompt_includes zeroSettings analysisSummary) as H.
  split; [apply H | split; apply H].
Qed.

End PromptFacts.

(* ===================================================================== *)
(** ** Base64: decoding undoes encoding *)
(* ===================================================================== *)

Module Base64Facts.

Import Base64.

Ltac each_sextet s :=
  destruct s as [[[[[b5 b4] b3] b2] b1] b0];
  destruct b5, b4, b3, b2, b1, b0.



Lemma char_of_sextet_not_comma (s : sextet) :
  Ascii.eqb (char_of_sextet s) Js.comma = false.
Proof. each_sextet s; vm_compute; reflexivity. Qed.




(** Induction over a list three elements at a time. *)
Lemma list_ind3 {A : Type} (P : list A -> Prop) :
  P [] ->
  (forall a, P [a]) ->
  (forall a b, P [a; b]) ->
  (forall a b c rest, P rest -> P (a :: b :: c :: rest)) ->
  forall l, P l.
Proof.
  intros H0 H1 H2 H3.
  fix IH 1.
  intros [|a [|b [|c rest]]];
    [exact H0 | exact (H1 a) | exact (H2 a b) | exact (H3 a b c rest (IH rest))].
Qed.


Lemma encode_no_comma (bs : list byte) :
  Observe.has_char Js.comma (encode bs) = false.
Proof.
  induction bs as [|a|a b|a b c rest IH] using list_ind3.
  - reflexivity.
  - cbn [encode]. destruct (sextets3 a x00 x00) as [[[s1 s2] s3] s4].
    cbn [Observe.has_char]. rewrite !char_of_sextet_not_comma. reflexivity.
  - cbn [encode]. destruct (sextets3 a b x00) as [[[s1 s2] s3] s4].
    cbn [Observe.has_char]. rewrite !char_of_sextet_not_comma. reflexivity.
  - cbn [encode]. destruct (sextets3 a b c) as [[[s1 s2] s3] s4].
    cbn [Observe.has_char]. rewrite !char_of_sextet_not_comma, IH. reflexivity.
Qed.

End Base64Facts.

(* ===================================================================== *)
(** ** Step 1: the image encoder *)
(* ===================================================================== *)

Module EncoderFacts.

Import GeminiService Observe.

Lemma has_char_app (c : ascii) (a b : string) :
  has_char c (a ++ b) = has_char c a || has_char c b.
Proof.
  induction a as [|d a IH]; simpl; [reflexivity|].
  rewrite IH. apply orb_assoc.
Qed.

Lemma split_no_sep (sep : ascii) (s : string) :
  has_char sep s = false -> Js.split sep s = [s].
Proof.
  induction s as [|c s IH]; simpl; intros H; [reflexivity|].
  apply orb_false_iff in H. destruct H as [Hc Hs].
  rewrite (IH Hs), Hc. reflexivity.
Qed.

Lemma split_nonempty (sep : ascii) (s : string) : Js.split sep s <> [].
Proof.
  induction s as [|c s IH]; simpl; [discriminate|].
  destruct (Js.split sep s); [contradiction|].
  destruct (Ascii.eqb c sep); discriminate.
Qed.

Lemma split_header (sep : ascii) (h p : string) :
  has_char sep h = false ->
  Js.split sep (h ++ String sep p) = h :: Js.split sep p.
Proof.
  induction h as [|c h IH]; simpl; intros H.
  - pose proof (split_nonempty sep p) as Hne.
    destruct (Js.split sep p); [contradiction|].
    rewrite Ascii.eqb_refl. reflexivity.
  - apply orb_false_iff in H. destruct H as [Hc Hs].
    rewrite (IH Hs), Hc. reflexivity.
Qed.

(** [reader.result.split(',')[1]] of a data URL is its base64 payload. *)
Lemma payload_of_dataURL (mediatype : string) (content : list byte) :
  has_char Js.comma mediatype = false ->
  Js.index (Js.split Js.comma (dataURL mediatype content)) 1
    = Some (Base64.encode content).
Proof.
  intros H. unfold dataURL.
  set (payload := Base64.encode content).
  rewrite <- (JsFacts.append_assoc mediatype ";base64" (String Js.comma payload)).
  rewrite <- (JsFacts.append_assoc "data:" (mediatype ++ ";base64") (String Js.comma payload)).
  rewrite split_header.
  - rewrite split_no_sep by apply Base64Facts.encode_no_comma. reflexivity.
  - rewrite !has_char_app, H. reflexivity.
Qed.

Section WithHost.

Variable host : Host.

Lemma encodeImage_promise (file : File) (t : Trace) :
  encodeImage host file t
    = (Normal (promiseOf file (fileReader host t file)), t ++ [ReadAsDataURL file]).
Proof.
  unfold encodeImage, promiseOf.
  destruct (outcome (fileReader host t file)); reflexivity.
Qed.

Lemma array_map_encodeImage (images : list File) (t : Trace) :
  array_map (encodeImage host) images t
    = (Normal (promises host t images), t ++ map ReadAsDataURL images).
Proof.
  revert t. induction images as [|file rest IH]; intros t; simpl.
  - unfold ret. rewrite app_nil_r. reflexivity.
  - unfold bind at 1. rewrite encodeImage_promise.
    unfold bind at 1. rewrite IH. unfold ret.
    rewrite <- app_assoc. reflexivity.
Qed.

Lemma reads_length (images : list File) (t : Trace) :
  length (reads host t images) = length images.
Proof.
  revert t. induction images as [|file rest IH]; intros t; simpl; [reflexivity|].
  rewrite IH. reflexivity.
Qed.

Lemma promises_nth (images : list File) (t : Trace) (i : nat) (p : Promise ImagePart) :
  nth_error (promises host t images) i = Some p <->
  exists file r, nth_error images i = Some file /\
                 nth_error (reads host t images) i = Some r /\
                 p = promiseOf file r.
Proof.
  revert t i. induction images as [|file rest IH]; intros t i; simpl.
  - destruct i; simpl; split; [discriminate | intros (f & r & H & _); discriminate
                              | discriminate | intros (f & r & H & _); discriminate].
  - destruct i as [|i]; simpl.
    + split.
      * intros H. injection H as <-. eexists _, _. repeat split.
      * intros (f & r & Hf & Hr & ->). injection Hf as <-. injection Hr as <-. reflexivity.
    + apply IH.
Qed.

End WithHost.

Section PromiseAll.

Context {A : Type}.

Lemma first_rejection_none (ps : list (Promise A)) :
  first_rejection ps = None <->
  Forall (fun p => exists a, completion p = Normal a) ps.
Proof.
  induction ps as [|p rest IH]; simpl.
  - split; [constructor | reflexivity].
  - destruct (completion p) as [a|e] eqn:Ep.
    + rewrite IH. split.
      * intros H. constructor; [exists a; exact Ep | exact H].
      * intros H. inversion H; assumption.
    + split.
      * destruct (first_rejection rest) as [[t' e']|]; [|discriminate].
        destruct (Nat.ltb t' (settles_at p)); discriminate.
      * intros H. inversion H as [|? ? [a Ha] _]; subst. congruence.
Qed.

Lemma fulfilled_values_all {B : Type} (g : B -> A) (l : list B) (ps : list (Promise A)) :
  Forall2 (fun b p => completion p = Normal (g b)) l ps ->
  first_rejection ps = None /\ fulfilled_values ps = map g l.
Proof.
  induction 1 as [|b p l ps Hp _ [IH1 IH2]]; simpl.
  - split; reflexivity.
  - rewrite Hp, IH1, IH2. split; reflexivity.
Qed.

(** The rejection [Promise.all] reports belongs to one of the promises, and
    no rejected promise settles before it. *)
Lemma first_rejection_earliest (ps : list (Promise A)) (tm : nat) (e : Thrown) :
  first_rejection ps = Some (tm, e) ->
  exists i p,
    nth_error ps i = Some p /\ completion p = Abrupt e /\ settles_at p = tm /\
    forall j q e', nth_error ps j = Some q -> completion q = Abrupt e' ->
                   tm <= settles_at q.
Proof.
  revert tm e. induction ps as [|p rest IH]; simpl; intros tm e H; [discriminate|].
  destruct (completion p) as [a|e0] eqn:Ep.
  - destruct (IH tm e H) as (i & q & Hi & Hq & Ht & Hmin).
    exists (S i), q. repeat split; try assumption.
    intros [|j] q' e' Hj Hq'; simpl in Hj.
    + injection Hj as <-. congruence.
    + eapply Hmin; eassumption.
  - destruct (first_rejection rest) as [[t' e']|] eqn:Er.
    + destruct (IH t' e' eq_refl) as (i & q & Hi & Hq & Ht & Hmin).
      destruct (Nat.ltb t' (settles_at p)) eqn:Hlt; injection H as <- <-.
      * apply Nat.ltb_lt in Hlt.
        exists (S i), q. repeat split; try assumption.
        intros [|j] q' e'' Hj Hq'; simpl in Hj.
        -- injection Hj as <-. lia.
        -- eapply Hmin; eassumption.
      * apply Nat.ltb_ge in Hlt.
        exists 0, p. repeat split; try assumption.
        intros [|j] q' e'' Hj Hq'; simpl in Hj.
        -- injection Hj as <-. lia.
        -- specialize (Hmin j q' e'' Hj Hq'). lia.
    + injection H as <- <-.
      exists 0, p. repeat split; try assumption.
      intros [|j] q' e'' Hj Hq'; simpl in Hj.
      * injection Hj as <-. lia.
      * apply first_rejection_none in Er.
        apply nth_error_In in Hj.
        rewrite Forall_forall in Er. destruct (Er q' Hj) as [a Ha]. congruence.
Qed.

End PromiseAll.

Section Encoder.

Variable host : Host.

Lemma encodeImages_run (images : list File) (t : Trace) :
  encodeImages host images t =
  (match first_rejection (promises host t images) with
   | Some (_, e) => Abrupt e
   | None => Normal (fulfilled_values (promises host t images))
   end,
   t ++ map ReadAsDataURL images).
Proof.
  unfold encodeImages, bind. rewrite array_map_encodeImage.
  unfold await_all.
  destruct (first_rejection (promises host t images)) as [[tm e]|]; reflexivity.
Qed.

Lemma promises_of_loaded (images : list File) (t : Trace) :
  Forall2 loads_dataURL images (reads host t images) ->
  Forall2 (fun file p => completion p = Normal (partOf file))
    images (promises host t images).
Proof.
  revert t. induction images as [|file rest IH]; intros t H; cbn [reads promises] in *.
  - constructor.
  - inversion H as [|? ? ? ? (mediatype & Hm & Hr) Hrest]; subst.
    constructor; [|apply IH; exact Hrest].
    unfold promiseOf, partOf. cbn [completion]. rewrite Hr.
    rewrite (payload_of_dataURL _ _ Hm). reflexivity.
Qed.

Lemma reads_nth_file (images : list File) (t : Trace) (i : nat) (r : Read) :
  nth_error (reads host t images) i = Some r ->
  exists file, nth_error images i = Some file.
Proof.
  intros H.
  assert (Hlt : i < length images).
  { rewrite <- (reads_length host images t). apply nth_error_Some. congruence. }
  destruct (nth_error images i) as [file|] eqn:E; [exists file; reflexivity|].
  apply nth_error_None in E. lia.
Qed.


(** The reason of a rejected part promise is the event of a failed read. *)
Lemma promiseOf_rejected (file : File) (r : Read) (e : Thrown) :
  completion (promiseOf file r) = Abrupt e <->
  exists ev, outcome r = OnError ev /\ e = ReaderEvent ev.
Proof.
  unfold promiseOf; simpl. destruct (outcome r) as [result|ev].
  - split; [discriminate | intros (ev & H & _); discriminate].
  - split.
    + intros H. injection H as <-. exists ev. split; reflexivity.
    + intros (ev' & H & ->). injection H as <-. reflexivity.
Qed.

Lemma encodeImages_first_error (images : list File) (t : Trace) :
  (exists i r ev, nth_error (reads host t images) i = Some r /\ outcome r = OnError ev) ->
  exists i r ev,
    nth_error (reads host t images) i = Some r /\
    outcome r = OnError ev /\
    (forall j r' ev',
        nth_error (reads host t images) j = Some r' -> outcome r' = OnError ev' ->
        finished_at r <= finished_at r') /\
    encodeImages host images t
      = (Abrupt (ReaderEvent ev), t ++ map ReadAsDataURL images).
Proof.
  intros (i0 & r0 & ev0 & Hi0 & Hr0).
  destruct (reads_nth_file _ _ _ _ Hi0) as [f0 Hf0].
  destruct (first_rejection (promises host t images)) as [[tm e]|] eqn:Efirst.
  - destruct (first_rejection_earliest _ _ _ Efirst) as (i & p & Hi & Hp & Ht & Hmin).
    apply promises_nth in Hi. destruct Hi as (file & r & Hfile & Hr & ->).
    apply promiseOf_rejected in Hp. destruct Hp as (ev & Hev & ->).
    exists i, r, ev. repeat split; try assumption.
    + intros j r' ev' Hj Hr'.
      destruct (reads_nth_file _ _ _ _ Hj) as [f' Hf'].
      simpl in Ht. rewrite Ht.
      apply (Hmin j (promiseOf f' r') (ReaderEvent ev')).
      * apply promises_nth. exists f', r'. repeat split; assumption.
      * apply promiseOf_rejected. exists ev'. split; [assumption | reflexivity].
    + rewrite encodeImages_run, Efirst. reflexivity.
  - exfalso. apply first_rejection_none in Efirst.
    rewrite Forall_forall in Efirst.
    destruct (Efirst (promiseOf f0 r0)) as [a Ha].
    + apply (nth_error_In _ i0). apply promises_nth.
      exists f0, r0. repeat split; assumption.
    + assert (Hrej : completion (promiseOf f0 r0) = Abrupt (ReaderEvent ev0)).
      { apply promiseOf_rejected. exists ev0. split; [assumption | reflexivity]. }
      congruence.
Qed.

Lemma service_events_reads (images : list File) :
  service_events (map ReadAsDataURL images) = [].
Proof. induction images as [|file rest IH]; simpl; [reflexivity | exact IH]. Qed.

Lemma getGeminiClient_ok (t : Trace) :
  Js.truthy (API_KEY host) = true ->
  getGeminiClient host t = (Normal (client host), t).
Proof. intros H. unfold getGeminiClient. rewrite H. reflexivity. Qed.

(** C7. When at least one read of the batch fails, the encoder throws the
    event of a failed read that no other failed read precedes, and returns no
    list; the pipeline (with a key present) throws that same event and stops
    after the reads were started: no request is issued. *)
Theorem encodeImages_read_error (images : list File) (settings : ExamSettings) (t : Trace) :
  Js.truthy (API_KEY host) = true ->
  (exists i r ev, nth_error (reads host t images) i = Some r /\ outcome r = OnError ev) ->
  exists i r ev,
    nth_error (reads host t images) i = Some r /\
    outcome r = OnError ev /\
    (forall j r' ev',
        nth_error (reads host t images) j = Some r' -> outcome r' = OnError ev' ->
        finished_at r <= finished_at r') /\
    encodeImages host images t
      = (Abrupt (ReaderEvent ev), t ++ map ReadAsDataURL images) /\
    analyzeImagesAndGenerateQuestions host images settings t
      = (Abrupt (ReaderEvent ev), t ++ map ReadAsDataURL images) /\
    service_events (map ReadAsDataURL images) = [].
Proof.
  intros Hkey Hfail.
  destruct (encodeImages_first_error images t Hfail) as (i & r & ev & Hi & Hr & Hmin & Henc).
  exists i, r, ev. repeat split; try assumption.
  - unfold analyzeImagesAndGenerateQuestions, bind.
    rewrite (getGeminiClient_ok t Hkey), Henc. reflexivity.
  - apply service_events_reads.
Qed.

End Encoder.

Import Samples.


Lemma encodeImages_read_error_witness :
  exists i r ev,
    nth_error (reads pickyHost [] [page1; page2]) i = Some r /\
    outcome r = OnError ev /\
    (forall j r' ev',
        nth_error (reads pickyHost [] [page1; page2]) j = Some r' ->
        outcome r' = OnError ev' -> finished_at r <= finished_at r') /\
    encodeImages pickyHost [page1; page2] []
      = (Abrupt (ReaderEvent ev), [] ++ map ReadAsDataURL [page1; page2]) /\
    analyzeImagesAndGenerateQuestions pickyHost [page1; page2] App.initialSettings []
      = (Abrupt (ReaderEvent ev), [] ++ map ReadAsDataURL [page1; page2]) /\
    service_events (map ReadAsDataURL [page1; page2]) = [].
Proof.
  apply (encodeImages_read_error pickyHost [page1; page2] App.initialSettings []).
  - reflexivity.
  - exists 1, (pickyReader [ReadAsDataURL page1] page2), errorEvent.
    split; reflexivity.
Defined.

End EncoderFacts.

(* ===================================================================== *)
(** ** Steps 2 and 3: analysis, then generation *)
(* ===================================================================== *)

Module PipelineFacts.

Import GeminiService Observe EncoderFacts.

Lemma summaryOf_nonempty (r : GenerateContentResponse) : summaryOf r <> EmptyString.
Proof. unfold summaryOf. destruct (text r) as [[|c s]|]; discriminate. Qed.

Lemma summaryOf_fallback (r : GenerateContentResponse) :
  Js.truthy (text r) = false -> summaryOf r = fallbackSummary.
Proof. unfold summaryOf. destruct (text r) as [[|c s]|]; [reflexivity | discriminate | reflexivity]. Qed.

Lemma summaryOf_text (r : GenerateContentResponse) (s : string) :
  text r = Some s -> s <> EmptyString -> summaryOf r = s.
Proof. unfold summaryOf. intros -> H. destruct s; [contradiction | reflexivity]. Qed.

Lemma service_events_app (a b : Trace) :
  service_events (a ++ b) = service_events a ++ service_events b.
Proof. apply filter_app. Qed.

Lemma openSelectKey_calls_app (a b : Trace) :
  openSelectKey_calls (a ++ b) = openSelectKey_calls a + openSelectKey_calls b.
Proof. unfold openSelectKey_calls. rewrite filter_app. apply length_app. Qed.

Lemma openSelectKey_calls_reads (images : list File) :
  openSelectKey_calls (map ReadAsDataURL images) = 0.
Proof. induction images as [|file rest IH]; [reflexivity | exact IH]. Qed.


Lemma entity_not_found_false (e : Thrown) :
  (forall m, message_of e = Some m ->
             Js.includes m "Requested entity was not found." = false) ->
  entity_not_found e = false.
Proof.
  unfold entity_not_found. intros H.
  destruct (message_of e) as [m|]; [|reflexivity].
  rewrite (H m eq_refl). apply andb_false_r.
Qed.

Section Pipeline.

Variable host : Host.
Variable settings : ExamSettings.

(** The run, once the key is present and the images are encoded. *)
Lemma pipeline_run (images : list File) (t : Trace)
    (imageParts : list ImagePart) (t1 : Trace) :
  Js.truthy (API_KEY host) = true ->
  encodeImages host images t = (Normal imageParts, t1) ->
  analyzeImagesAndGenerateQuestions host images settings t =
  match analysisAnswer host settings imageParts t1 with
  | Abrupt e =>
      (Abrupt (Error analysisFailureMessage),
       t1 ++ [GenerateContent (analysisRequest settings imageParts);
              Settled (Abrupt e);
              ConsoleError "Error during image analysis:" e])
  | Normal r =>
      match generationAnswer host settings imageParts t1 r with
      | Normal g =>
          (Normal (text g), uptoGeneration settings imageParts t1 r ++ [Settled (Normal g)])
      | Abrupt e =>
          if entity_not_found e then
            (Abrupt (Error keyErrorMessage),
             uptoGeneration settings imageParts t1 r ++
             [Settled (Abrupt e); ConsoleError "Error during question generation:" e;
              OpenSelectKey])
          else
            (Abrupt (Error (Js.or_else (message_of e) genericGenerationMessage)),
             uptoGeneration settings imageParts t1 r ++
             [Settled (Abrupt e); ConsoleError "Error during question generation:" e])
      end
  end.
Proof.
  intros Hkey Henc.
  unfold analyzeImagesAndGenerateQuestions.
  unfold bind at 1. rewrite (getGeminiClient_ok host t Hkey).
  unfold bind at 1. rewrite Henc.
  unfold bind at 1. unfold analyze, try_catch, models_generateContent.
  fold (analysisAnswer host settings imageParts t1).
  destruct (analysisAnswer host settings imageParts t1) as [r|e] eqn:Ea.
  - unfold bind at 1. unfold console_log, emit.
    unfold bind at 1. unfold generate, try_catch, models_generateContent.
    fold (summaryOf r).
    unfold generationAnswer, uptoGeneration.
    repeat rewrite <- app_assoc. cbn [app].
    destruct (generateContent host _ (client host) (generationRequest settings (summaryOf r)))
      as [g|e] eqn:Eg.
    + unfold ret. repeat rewrite <- app_assoc. reflexivity.
    + unfold console_error, openSelectKey, emit, bind, throw.
      destruct (entity_not_found e); repeat rewrite <- app_assoc; reflexivity.
  - unfold console_error, emit, bind, throw.
    repeat rewrite <- app_assoc. reflexivity.
Qed.

Lemma encodeImages_trace (images : list File) (t : Trace) :
  snd (encodeImages host images t) = t ++ map ReadAsDataURL images.
Proof. rewrite encodeImages_run. reflexivity. Qed.

(** C2. When the analysis call succeeds, the summary is the response's text
    or, when that text is empty or missing, the literal fallback; it is
    never empty; and the run goes on to log it and to issue the generation
    request built from it. *)
Theorem analysis_summary_fallback (images : list File) (t : Trace)
    (imageParts : list ImagePart) (t1 : Trace) (r : GenerateContentResponse) :
  Js.truthy (API_KEY host) = true ->
  encodeImages host images t = (Normal imageParts, t1) ->
  analysisAnswer host settings imageParts t1 = Normal r ->
  (Js.truthy (text r) = false ->
   summaryOf r = "No specific insights extracted from images.") /\
  summaryOf r <> EmptyString /\
  exists result rest,
    analyzeImagesAndGenerateQuestions host images settings t
      = (result,
         t1 ++ [GenerateContent (analysisRequest settings imageParts);
                Settled (Normal r);
                ConsoleLog "Image Analysis Summary:" (summaryOf r);
                GenerateContent (generationRequest settings (summaryOf r))]
            ++ rest).
Proof.
  intros Hkey Henc Ha.
  split; [apply summaryOf_fallback|].
  split; [apply summaryOf_nonempty|].
  rewrite (pipeline_run images t imageParts t1 Hkey Henc), Ha.
  destruct (generationAnswer host settings imageParts t1 r) as [g|e];
    [|destruct (entity_not_found e)];
    unfold uptoGeneration; rewrite <- app_assoc; eexists _, _; reflexivity.
Qed.

(** C3. In every run the interactions with the service are, in this order:
    none; or the analysis request and its rejection; or the analysis
    request, its fulfilment, the generation request built from the fulfilled
    response, and the settlement of that request.  The generation request is
    thus never issued before the analysis request has been fulfilled. *)
Theorem service_calls_sequential (images : list File) (t : Trace) :
  exists new,
    snd (analyzeImagesAndGenerateQuestions host images settings t) = t ++ new /\
    (service_events new = [] \/
     (exists imageParts e,
         service_events new =
         [GenerateContent (analysisRequest settings imageParts); Settled (Abrupt e)]) \/
     (exists imageParts r g,
         service_events new =
         [GenerateContent (analysisRequest settings imageParts); Settled (Normal r);
          GenerateContent (generationRequest settings (summaryOf r)); Settled g])).
Proof.
  destruct (Js.truthy (API_KEY host)) eqn:Hkey.
  2:{ exists []. split; [|left; reflexivity].
      unfold analyzeImagesAndGenerateQuestions, bind, getGeminiClient.
      rewrite Hkey. simpl. rewrite app_nil_r. reflexivity. }
  pose proof (encodeImages_trace images t) as Ht.
  destruct (encodeImages host images t) as [[imageParts|e] t1] eqn:Henc; simpl in Ht; subst t1.
  2:{ exists (map ReadAsDataURL images). split; [|left; apply service_events_reads].
      unfold analyzeImagesAndGenerateQuestions, bind.
      rewrite (getGeminiClient_ok host t Hkey), Henc. reflexivity. }
  rewrite (pipeline_run images t imageParts _ Hkey Henc).
  destruct (analysisAnswer host settings imageParts _) as [r|e].
  - unfold uptoGeneration.
    destruct (generationAnswer host settings imageParts _ r) as [g|e];
      [|destruct (entity_not_found e)];
      cbn [snd]; repeat rewrite <- app_assoc;
      (eexists; split; [reflexivity|]);
      right; right; exists imageParts, r; eexists;
      rewrite service_events_app, service_events_reads; reflexivity.
  - cbn [snd]. repeat rewrite <- app_assoc.
    eexists; split; [reflexivity|].
    right; left; exists imageParts, e.
    rewrite service_events_app, service_events_reads. reflexivity.
Qed.


(** C6. When the analysis call is rejected, whatever the reason [e], the
    error thrown is a new [Error] with the message "Failed to analyze
    images. Please try again."; [e] goes to the console only, and nothing
    else is requested. *)
Theorem analysis_failure (images : list File) (t : Trace)
    (imageParts : list ImagePart) (t1 : Trace) (e : Thrown) :
  Js.truthy (API_KEY host) = true ->
  encodeImages host images t = (Normal imageParts, t1) ->
  analysisAnswer host settings imageParts t1 = Abrupt e ->
  analyzeImagesAndGenerateQuestions host images settings t
    = (Abrupt (Error "Failed to analyze images. Please try again."),
       t1 ++ [GenerateContent (analysisRequest settings imageParts);
              Settled (Abrupt e);
              ConsoleError "Error during image analysis:" e]).
Proof.
  intros Hkey Henc Ha.
  rewrite (pipeline_run images t imageParts t1 Hkey Henc), Ha. reflexivity.
Qed.

(** C8. When the generation call is fulfilled with [g], the function
    returns the [text] of [g] as it is, be it a string, the empty string or
    [undefined], and does nothing after the settlement. *)
Theorem returns_generation_text (images : list File) (t : Trace)
    (imageParts : list ImagePart) (t1 : Trace) (r g : GenerateContentResponse) :
  Js.truthy (API_KEY host) = true ->
  encodeImages host images t = (Normal imageParts, t1) ->
  analysisAnswer host settings imageParts t1 = Normal r ->
  generationAnswer host settings imageParts t1 r = Normal g ->
  analyzeImagesAndGenerateQuestions host images settings t
    = (Normal (text g),
       uptoGeneration settings imageParts t1 r ++ [Settled (Normal g)]).
Proof.
  intros Hkey Henc Ha Hg.
  rewrite (pipeline_run images t imageParts t1 Hkey Henc), Ha, Hg. reflexivity.
Qed.

(** C9. Without a key in the environment (absent, or empty) the function
    throws the error of [getGeminiClient], whose message says that API_KEY
    is not defined, and the trace is unchanged: no read was started and no
    request issued. *)
Theorem missing_api_key (images : list File) (t : Trace) :
  Js.truthy (API_KEY host) = false ->
  analyzeImagesAndGenerateQuestions host images settings t
    = (Abrupt (Error "API_KEY is not defined in the environment variables."), t) /\
  Js.includes "API_KEY is not defined in the environment variables."
              "API_KEY is not defined" = true.
Proof.
  intros Hkey. split; [|reflexivity].
  unfold analyzeImagesAndGenerateQuestions, bind, getGeminiClient.
  rewrite Hkey. reflexivity.
Qed.

End Pipeline.

Import Samples.

(** Runs on the sample hosts. *)
Example run_goodHost :
  fst (analyzeImagesAndGenerateQuestions goodHost [page1; page2] App.initialSettings [])
    = Normal (Some "## Multiple Choice Questions (MCQs)").
Proof. vm_compute. reflexivity. Qed.

Example run_silentHost :
  service_events
    (snd (analyzeImagesAndGenerateQuestions silentHost [page1] App.initialSettings []))
    = [GenerateContent (analysisRequest App.initialSettings [partOf page1]);
       Settled (Normal emptyResponse);
       GenerateContent (generationRequest App.initialSettings
                          "No specific insights extracted from images.");
       Settled (Normal examResponse)].
Proof. vm_compute. reflexivity. Qed.

Example run_quotaHost :
  analyzeImagesAndGenerateQuestions quotaHost [page1] App.initialSettings []
    = (Abrupt (Error "Quota exceeded."),
       uptoGeneration App.initialSettings [partOf page1] [ReadAsDataURL page1] summaryResponse
         ++ [Settled (Abrupt quota);
             ConsoleError "Error during question generation:" quota]).
Proof. vm_compute. reflexivity. Qed.

Example run_noMessageHost :
  fst (analyzeImagesAndGenerateQuestions noMessageHost [page1] App.initialSettings [])
    = Abrupt (Error "Failed to generate questions. Please check your prompt or try again.").
Proof. vm_compute. reflexivity. Qed.

Example run_noTextHost :
  fst (analyzeImagesAndGenerateQuestions noTextHost [page1] App.initialSettings [])
    = Normal None.
Proof. vm_compute. reflexivity. Qed.

Lemma analysis_summary_fallback_witness :
  (Js.truthy (text emptyResponse) = false ->
   summaryOf emptyResponse = "No specific insights extracted from images.") /\
  summaryOf emptyResponse <> EmptyString /\
  exists result rest,
    analyzeImagesAndGenerateQuestions silentHost [page1] App.initialSettings []
      = (result,
         [ReadAsDataURL page1]
           ++ [GenerateContent (analysisRequest App.initialSettings [partOf page1]);
               Settled (Normal emptyResponse);
               ConsoleLog "Image Analysis Summary:" (summaryOf emptyResponse);
               GenerateContent (generationRequest App.initialSettings
                                  (summaryOf emptyResponse))]
           ++ rest).
Proof.
  apply (analysis_summary_fallback silentHost App.initialSettings [page1] []
           [partOf page1] [ReadAsDataURL page1] emptyResponse);
    reflexivity.
Defined.


Lemma analysis_failure_witness :
  analyzeImagesAndGenerateQuestions analysisDownHost [page1] App.initialSettings []
    = (Abrupt (Error "Failed to analyze images. Please try again."),
       [ReadAsDataURL page1]
         ++ [GenerateContent (analysisRequest App.initialSettings [partOf page1]);
             Settled (Abrupt quota);
             ConsoleError "Error during image analysis:" quota]).
Proof.
  apply (analysis_failure analysisDownHost App.initialSettings [page1] []
           [partOf page1] [ReadAsDataURL page1] quota);
    reflexivity.
Defined.

Lemma returns_generation_text_witness :
  analyzeImagesAndGenerateQuestions noTextHost [page1] App.initialSettings []
    = (Normal (text {| text := None |}),
       uptoGeneration App.initialSettings [partOf page1] [ReadAsDataURL page1] summaryResponse
         ++ [Settled (Normal {| text := None |})]).
Proof.
  apply (returns_generation_text noTextHost App.initialSettings [page1] []
           [partOf page1] [ReadAsDataURL page1] summaryResponse {| text := None |});
    reflexivity.
Defined.

Lemma missing_api_key_witness :
  analyzeImagesAndGenerateQuestions noKeyHost [page1; page2] App.initialSettings []
    = (Abrupt (Error "API_KEY is not defined in the environment variables."), []) /\
  Js.includes "API_KEY is not defined in the environment variables."
              "API_KEY is not defined" = true.
Proof.
  apply (missing_api_key noKeyHost App.initialSettings [page1; page2] []).
  reflexivity.
Defined.

End PipelineFacts.

(* ===================================================================== *)
(** ** The guard of [generateExam] *)
(* ===================================================================== *)

Module AppFacts.

Import App Samples.

Section WithService.

Variable service : list File -> ExamSettings -> Effect (option string).

(** With at least one image the handler does call the service: the trace
    after the handler starts with the trace after the call. *)
Lemma generateExam_calls_service (s : State) (t : Trace) :
  uploadedImages s <> [] ->
  exists rest,
    snd (generateExam service s t)
      = snd (service (uploadedImages s) (settings s) t) ++ rest.
Proof.
  intros H. unfold generateExam.
  destruct (uploadedImages s) as [|file files] eqn:E; [contradiction|].
  cbn [setError setLoading setGeneratedExam uploadedImages settings length Nat.eqb].
  rewrite E. cbn [length Nat.eqb].
  destruct (service (file :: files) (settings s) t) as [[examContent|err] t'].
  - exists []. rewrite app_nil_r. reflexivity.
  - destruct (message_of err); eexists; reflexivity.
Qed.

(** C10. With no uploaded image the handler completes with the error
    message "Please upload at least one image.", not loading, no exam, and
    the trace it started with.  This holds whatever function is imported as
    [analyzeImagesAndGenerateQuestions]: the handler does not call it. *)
Theorem generateExam_without_images (s : State) (t : Trace) :
  uploadedImages s = [] ->
  generateExam service s t =
  (Normal tt,
   {| settings := settings s;
      uploadedImages := [];
      loading := false;
      error := Some "Please upload at least one image.";
      generatedExam := None;
      showApiKeyPrompt := showApiKeyPrompt s;
      examHtmlRef := examHtmlRef s |},
   t).
Proof.
  intros H. unfold generateExam.
  cbn [setError setLoading setGeneratedExam uploadedImages].
  rewrite H. cbn [length Nat.eqb].
  unfold setLoading, setError, setGeneratedExam.
  cbn [settings uploadedImages loading error generatedExam showApiKeyPrompt examHtmlRef].
  rewrite H. reflexivity.
Qed.

End WithService.

Lemma generateExam_without_images_witness :
  generateExam (GeminiService.analyzeImagesAndGenerateQuestions noKeyHost) emptyState [] =
  (Normal tt,
   {| settings := initialSettings;
      uploadedImages := [];
      loading := false;
      error := Some "Please upload at least one image.";
      generatedExam := None;
      showApiKeyPrompt := false;
      examHtmlRef := None |},
   []).
Proof.
  apply (generateExam_without_images
           (GeminiService.analyzeImagesAndGenerateQuestions noKeyHost) emptyState []).
  reflexivity.
Defined.

(** Had the handler called the service of [noKeyHost], the error shown
    would be the one of [getGeminiClient]. *)
Example generateExam_noKeyHost_with_image :
  let s := {| settings := initialSettings; uploadedImages := [page1];
              loading := false; error := None; generatedExam := None;
              showApiKeyPrompt := false; examHtmlRef := None |} in
  error (snd (fst (generateExam
                     (GeminiService.analyzeImagesAndGenerateQuestions noKeyHost) s [])))
    = Some "API_KEY is not defined in the environment variables.".
Proof. vm_compute. reflexivity. Qed.

End AppFacts.

(* ===================================================================== *)
(** ** More on the service: what the requests carry, what a run can throw *)
(* ===================================================================== *)

Module ServiceFacts.

Import GeminiService Observe JsFacts EncoderFacts PipelineFacts.

(** The needle starts here and holds several interpolated values. *)
Ltac needle_now :=
  apply includes_prefix; cbn;
  repeat (apply prefix_app_common; cbn);
  reflexivity.

Ltac seek :=
  unfold Js.dquote, Js.nl; cbn [append];
  repeat first [ solve [needle_now] | apply includes_cons | apply includes_app_r ].

(** X1. The prompts read [topic], [className], [board], [language] and the three
    counts, and nothing else of the settings: a run is the same for two
    records that agree on these, whatever [studentName], [totalMarks] and
    [duration] are. *)
Theorem run_ignores_unread_settings (host : Host) (images : list File)
    (s1 s2 : ExamSettings) (t : Trace) :
  same_prompt_fields s1 s2 ->
  analyzeImagesAndGenerateQuestions host images s1 t
    = analyzeImagesAndGenerateQuestions host images s2 t.
Proof.
  destruct s1, s2. unfold same_prompt_fields. cbn.
  intros (-> & -> & -> & -> & -> & -> & ->).
  reflexivity.
Qed.

(** X2. The generation prompt quotes the topic, the class, the board and the
    analysis summary, each between double quotes after its label. *)
Theorem generationPrompt_quotes (settings : ExamSettings) (analysisSummary : string) :
  Js.includes (generationPrompt settings analysisSummary)
    ("topic: " ++ Js.dquote ++ topic settings ++ Js.dquote) = true /\
  Js.includes (generationPrompt settings analysisSummary)
    ("class " ++ Js.dquote ++ className settings ++ Js.dquote) = true /\
  Js.includes (generationPrompt settings analysisSummary)
    ("board " ++ Js.dquote ++ board settings ++ Js.dquote) = true /\
  Js.includes (generationPrompt settings analysisSummary)
    ("analysis of textbook content: " ++ Js.dquote ++ analysisSummary ++ Js.dquote) = true.
Proof.
  unfold generationPrompt.
  repeat split; seek.
Qed.

(** X3. The analysis prompt names the class and the board of the settings. *)
Theorem analysisPrompt_class_and_board (settings : ExamSettings) :
  Js.includes (analysisPrompt settings)
    ("exam paper for Class " ++ className settings ++ ", Board " ++ board settings ++ ".")
    = true.
Proof. unfold analysisPrompt. seek. Qed.

(** [split(',')[1]] is [undefined] exactly for a string without comma. *)
Lemma split_two_segments (sep : ascii) (s : string) :
  has_char sep s = true -> exists a b rest, Js.split sep s = a :: b :: rest.
Proof.
  induction s as [|c s IH]; simpl; intros H; [discriminate|].
  pose proof (split_nonempty sep s) as Hne.
  destruct (Js.split sep s) as [|seg segs] eqn:E; [contradiction|].
  destruct (Ascii.eqb c sep) eqn:Ec.
  - eexists _, _, _. reflexivity.
  - simpl in H. destruct (IH H) as (a & b & rest & Hab).
    injection Hab as -> ->. eexists _, _, _. reflexivity.
Qed.

Lemma payload_undefined (result : string) :
  Js.index (Js.split Js.comma result) 1 = None <-> has_char Js.comma result = false.
Proof.
  split.
  - intros H. destruct (has_char Js.comma result) eqn:E; [|reflexivity].
    destruct (split_two_segments _ _ E) as (a & b & rest & Hs).
    rewrite Hs in H. discriminate H.
  - intros H. rewrite (split_no_sep _ _ H). reflexivity.
Qed.

Section Service.

Variable host : Host.
Variable settings : ExamSettings.

Lemma promiseOf_loaded (file : File) (r : Read) (result : string) :
  outcome r = OnLoad result -> completion (promiseOf file r) = Normal (partFrom file result).
Proof. intros H. unfold promiseOf, partFrom. cbn [completion]. rewrite H. reflexivity. Qed.

Lemma promises_of_loads (images : list File) (t : Trace) :
  Forall loads (reads host t images) ->
  first_rejection (promises host t images) = None /\
  forall i file r result,
    nth_error images i = Some file ->
    nth_error (reads host t images) i = Some r ->
    outcome r = OnLoad result ->
    nth_error (fulfilled_values (promises host t images)) i = Some (partFrom file result).
Proof.
  revert t. induction images as [|f rest IH]; intros t H; cbn [reads promises] in *.
  - split; [reflexivity|]. intros [|i]; discriminate.
  - inversion H as [|? ? [result0 Hr0] Hrest]; subst.
    destruct (IH _ Hrest) as [IH1 IH2].
    cbn [first_rejection fulfilled_values].
    rewrite !(promiseOf_loaded f _ _ Hr0), IH1. split; [reflexivity|].
    intros [|i] file r result Hf Hr Ho; cbn [nth_error] in *.
    + injection Hf as <-. injection Hr as <-.
      rewrite Hr0 in Ho. injection Ho as <-. reflexivity.
    + apply (IH2 i file r result Hf Hr Ho).
Qed.

Lemma fulfilled_values_length (images : list File) (t : Trace) :
  Forall loads (reads host t images) ->
  length (fulfilled_values (promises host t images)) = length images.
Proof.
  revert t. induction images as [|f rest IH]; intros t H; cbn [reads promises] in *.
  - reflexivity.
  - inversion H as [|? ? [result0 Hr0] Hrest]; subst.
    cbn [fulfilled_values]. rewrite (promiseOf_loaded f _ _ Hr0).
    cbn [length]. rewrite (IH _ Hrest). reflexivity.
Qed.

(** X4. Whatever the readers load, the encoder returns one part per file, in
    order, with the file's type; the data of a part is what stands between
    the first and the second comma of [reader.result], and [undefined] when
    the result has no comma. *)
Theorem encodeImages_any_result (images : list File) (t : Trace) :
  Forall loads (reads host t images) ->
  exists parts,
    encodeImages host images t = (Normal parts, t ++ map ReadAsDataURL images) /\
    length parts = length images /\
    forall i file r result,
      nth_error images i = Some file ->
      nth_error (reads host t images) i = Some r ->
      outcome r = OnLoad result ->
      nth_error parts i =
        Some {| inlineData := {| mimeType := type file;
                                 data := Js.index (Js.split Js.comma result) 1 |} |} /\
      (has_char Js.comma result = false ->
       nth_error parts i =
         Some {| inlineData := {| mimeType := type file; data := None |} |}).
Proof.
  intros H. destruct (promises_of_loads images t H) as [Hnone Hnth].
  exists (fulfilled_values (promises host t images)). split; [|split].
  - rewrite encodeImages_run, Hnone. reflexivity.
  - apply fulfilled_values_length, H.
  - intros i file r result Hf Hr Ho.
    pose proof (Hnth i file r result Hf Hr Ho) as Hp. unfold partFrom in Hp.
    split; [exact Hp|].
    intros Hc. apply payload_undefined in Hc. rewrite Hc in Hp. exact Hp.
Qed.

(** X5. With a key, a run starts a read for every image, in the order of the
    images, before anything else, whether reads fail or not. *)
Theorem every_read_started (images : list File) (t : Trace) :
  Js.truthy (API_KEY host) = true ->
  exists rest,
    snd (analyzeImagesAndGenerateQuestions host images settings t)
      = t ++ map ReadAsDataURL images ++ rest.
Proof.
  intros Hkey.
  pose proof (encodeImages_trace host images t) as Ht.
  destruct (encodeImages host images t) as [[imageParts|e] t1] eqn:Henc;
    cbn [snd] in Ht; subst t1.
  - rewrite (pipeline_run host settings images t imageParts _ Hkey Henc).
    destruct (analysisAnswer host settings imageParts _) as [r|e].
    + unfold uptoGeneration.
      destruct (generationAnswer host settings imageParts _ r) as [g|e];
        [|destruct (entity_not_found e)];
        cbn [snd]; repeat rewrite <- app_assoc; eexists; reflexivity.
    + cbn [snd]. rewrite <- app_assoc. eexists; reflexivity.
  - exists []. rewrite app_nil_r.
    unfold analyzeImagesAndGenerateQuestions, bind.
    rewrite (getGeminiClient_ok host t Hkey), Henc. reflexivity.
Qed.

(** Once the images are encoded, the next interaction is the analysis
    request for these parts. *)
Lemma analysis_request_next (images : list File) (t : Trace)
    (imageParts : list ImagePart) (t1 : Trace) :
  Js.truthy (API_KEY host) = true ->
  encodeImages host images t = (Normal imageParts, t1) ->
  exists result rest,
    analyzeImagesAndGenerateQuestions host images settings t
      = (result, t1 ++ GenerateContent (analysisRequest settings imageParts) :: rest).
Proof.
  intros Hkey Henc.
  rewrite (pipeline_run host settings images t imageParts t1 Hkey Henc).
  destruct (analysisAnswer host settings imageParts t1) as [r|e].
  - unfold uptoGeneration.
    destruct (generationAnswer host settings imageParts t1 r) as [g|e];
      [|destruct (entity_not_found e)];
      rewrite <- app_assoc; eexists _, _; reflexivity.
  - eexists _, _. reflexivity.
Qed.

(** X6. When the reads load the data URLs of the files, the analysis request
    that is issued holds the prompt first and then one part per image, in
    the order of the images, each with the type and the base64 of its
    file. *)
Theorem analysis_request_parts (images : list File) (t : Trace) :
  Js.truthy (API_KEY host) = true ->
  Forall2 loads_dataURL images (reads host t images) ->
  exists request result rest,
    analyzeImagesAndGenerateQuestions host images settings t
      = (result, t ++ map ReadAsDataURL images ++ GenerateContent request :: rest) /\
    model request = "gemini-2.5-flash-image" /\
    contents request =
      ContentParts (TextPart (analysisPrompt settings)
                      :: map (fun file => InlinePart (partOf file)) images).
Proof.
  intros Hkey H.
  apply promises_of_loaded in H. apply fulfilled_values_all in H.
  destruct H as [Hnone Hvalues].
  assert (Henc : encodeImages host images t
                 = (Normal (map partOf images), t ++ map ReadAsDataURL images)).
  { rewrite encodeImages_run, Hnone, Hvalues. reflexivity. }
  destruct (analysis_request_next images t _ _ Hkey Henc) as (result & rest & Hrun).
  exists (analysisRequest settings (map partOf images)), result, rest.
  split; [|split].
  - rewrite Hrun, <- app_assoc. reflexivity.
  - reflexivity.
  - unfold analysisRequest. cbn [contents]. rewrite map_map. reflexivity.
Qed.

(** X7. The service has no guard for an empty batch: with a key and no image,
    the run issues, as its first interaction, an analysis request whose only
    part is the prompt. *)
Theorem empty_batch_is_analysed (t : Trace) :
  Js.truthy (API_KEY host) = true ->
  exists request result rest,
    analyzeImagesAndGenerateQuestions host [] settings t
      = (result, t ++ GenerateContent request :: rest) /\
    model request = "gemini-2.5-flash-image" /\
    contents request = ContentParts [TextPart (analysisPrompt settings)].
Proof.
  intros Hkey.
  assert (Henc : encodeImages host [] t = (Normal [], t)).
  { rewrite encodeImages_run. cbn. rewrite app_nil_r. reflexivity. }
  destruct (analysis_request_next [] t _ _ Hkey Henc) as (result & rest & Hrun).
  exists (analysisRequest settings []), result, rest.
  split; [exact Hrun | split; reflexivity].
Qed.




End Service.

Import Samples.

Lemma run_ignores_unread_settings_witness :
  analyzeImagesAndGenerateQuestions goodHost [page1; page2] App.initialSettings []
    = analyzeImagesAndGenerateQuestions goodHost [page1; page2] otherStudent [].
Proof.
  apply (run_ignores_unread_settings goodHost [page1; page2]
           App.initialSettings otherStudent []).
  repeat split.
Defined.

Lemma encodeImages_any_result_witness :
  exists parts,
    encodeImages bareHost [page1] [] = (Normal parts, [] ++ map ReadAsDataURL [page1]) /\
    length parts = length [page1] /\
    forall i file r result,
      nth_error [page1] i = Some file ->
      nth_error (reads bareHost [] [page1]) i = Some r ->
      outcome r = OnLoad result ->
      nth_error parts i =
        Some {| inlineData := {| mimeType := type file;
                                 data := Js.index (Js.split Js.comma result) 1 |} |} /\
      (has_char Js.comma result = false ->
       nth_error parts i =
         Some {| inlineData := {| mimeType := type file; data := None |} |}).
Proof.
  apply (encodeImages_any_result bareHost [page1] []).
  repeat constructor. exists "data:". reflexivity.
Defined.

(** With a reader result that has no comma, the request goes out with a
    part whose data is [undefined]. *)
Example run_bareHost :
  nth_error (snd (analyzeImagesAndGenerateQuestions bareHost [page1] App.initialSettings [])) 1
    = Some (GenerateContent
              (analysisRequest App.initialSettings
                 [{| inlineData := {| mimeType := "image/png"; data := None |} |}])).
Proof. vm_compute. reflexivity. Qed.

Lemma every_read_started_witness :
  exists rest,
    snd (analyzeImagesAndGenerateQuestions pickyHost [page2; page1] App.initialSettings [])
      = [] ++ map ReadAsDataURL [page2; page1] ++ rest.
Proof.
  apply (every_read_started pickyHost App.initialSettings [page2; page1] []).
  reflexivity.
Defined.

Lemma analysis_request_parts_witness :
  exists request result rest,
    analyzeImagesAndGenerateQuestions goodHost [page1; page2] App.initialSettings []
      = (result, [] ++ map ReadAsDataURL [page1; page2] ++ GenerateContent request :: rest) /\
    model request = "gemini-2.5-flash-image" /\
    contents request =
      ContentParts (TextPart (analysisPrompt App.initialSettings)
                      :: map (fun file => InlinePart (partOf file)) [page1; page2]).
Proof.
  apply (analysis_request_parts goodHost App.initialSettings [page1; page2] []).
  - reflexivity.
  - constructor; [exists "image/png"; split; reflexivity|].
    constructor; [exists "image/jpeg"; split; reflexivity|].
    constructor.
Defined.

Lemma empty_batch_is_analysed_witness :
  exists request result rest,
    analyzeImagesAndGenerateQuestions goodHost [] App.initialSettings []
      = (result, [] ++ GenerateContent request :: rest) /\
    model request = "gemini-2.5-flash-image" /\
    contents request = ContentParts [TextPart (analysisPrompt App.initialSettings)].
Proof.
  apply (empty_batch_is_analysed goodHost App.initialSettings []).
  reflexivity.
Defined.


End ServiceFacts.

(* ===================================================================== *)
(** ** More on the component: what [generateExam] leaves behind, and the
       handlers around it *)
(* ===================================================================== *)

Module HandlerFacts.

Import App Observe.

(** The cases of [generateExam]. *)
Ltac handler_cases service s t :=
  unfold generateExam;
  cbn [setError setLoading setGeneratedExam uploadedImages settings];
  destruct (uploadedImages s) as [|file files] eqn:Eimgs;
  cbn [length Nat.eqb];
  [| destruct (service (file :: files) (settings s) t) as [[examContent|err] t'];
     [| destruct (message_of err) as [m|];
        [destruct (Js.includes m "API key might be invalid")|] ] ].

(** Compare two states field by field. *)
Ltac state_eq E :=
  unfold setLoading, setError, setGeneratedExam, setExamHtmlRef, setShowApiKeyPrompt;
  cbn [settings uploadedImages loading error generatedExam showApiKeyPrompt examHtmlRef];
  rewrite ?E; reflexivity.

Section WithService.

Variable service : list File -> ExamSettings -> Effect (option string).

(** X10. Whatever the service does, [generateExam] ends with [loading] false,
    leaves the settings and the uploaded images as they were (so the
    Generate button is enabled again exactly when there are images), never
    hides the key prompt, and never leaves both an exam and an error
    message. *)
Theorem generateExam_invariants (s : State) (t : Trace) :
  let after := snd (fst (generateExam service s t)) in
  loading after = false /\
  settings after = settings s /\
  uploadedImages after = uploadedImages s /\
  generateDisabled after = Nat.eqb (length (uploadedImages s)) 0 /\
  implb (showApiKeyPrompt s) (showApiKeyPrompt after) = true /\
  (generatedExam after = None \/ error after = None).
Proof.
  handler_cases service s t; cbn; rewrite ?Eimgs;
    (split; [reflexivity|]); (split; [reflexivity|]); (split; [reflexivity|]);
    (split; [reflexivity|]);
    (split; [destruct (showApiKeyPrompt s); reflexivity|]);
    first [left; reflexivity | right; reflexivity].
Qed.

(** X11. After [generateExam], [printExam] prints exactly when this call of the
    service returned, and then the exam on display holds what it returned;
    an exam generated earlier does not survive a failed call. *)
Theorem print_only_fresh_exam (s : State) (t : Trace) :
  let after := snd (fst (generateExam service s t)) in
  printExam after = [Print] <->
  (uploadedImages s <> [] /\
   exists content t',
     service (uploadedImages s) (settings s) t = (Normal content, t') /\
     generatedExam after = Some {| htmlContent := content |} /\
     examHtmlRef after = content /\
     error after = None).
Proof.
  unfold generateExam.
  cbn [setError setLoading setGeneratedExam uploadedImages settings].
  destruct (uploadedImages s) as [|file files] eqn:Eimgs; cbn [length Nat.eqb].
  - cbn. split; [discriminate|].
    intros [H _]. contradiction.
  - destruct (service (file :: files) (settings s) t) as [[examContent|err] t'] eqn:Es.
    + cbn. split; [|reflexivity].
      intros _. split; [discriminate|].
      exists examContent, t'. repeat split.
    + destruct (message_of err) as [m|];
        [destruct (Js.includes m "API key might be invalid")|];
        cbn; (split; [discriminate|]);
        intros (_ & content & t'' & H & _); discriminate H.
Qed.

(** The three ways the handler ends after calling the service. *)
Lemma handler_on_return (s : State) (t t' : Trace) (content : option string) :
  uploadedImages s <> [] ->
  service (uploadedImages s) (settings s) t = (Normal content, t') ->
  generateExam service s t =
  (Normal tt,
   {| settings := settings s; uploadedImages := uploadedImages s;
      loading := false; error := None;
      generatedExam := Some {| htmlContent := content |};
      showApiKeyPrompt := showApiKeyPrompt s; examHtmlRef := content |},
   t').
Proof.
  intros Himgs Hs. unfold generateExam.
  cbn [setError setLoading setGeneratedExam uploadedImages settings].
  destruct (uploadedImages s) as [|file files] eqn:Eimgs; [contradiction|].
  cbn [length Nat.eqb]. rewrite Hs. state_eq Eimgs.
Qed.

Lemma handler_on_message (s : State) (t t' : Trace) (err : Thrown) (m : string) :
  uploadedImages s <> [] ->
  service (uploadedImages s) (settings s) t = (Abrupt err, t') ->
  message_of err = Some m ->
  generateExam service s t =
  (Normal tt,
   {| settings := settings s; uploadedImages := uploadedImages s;
      loading := false;
      error := Some (Js.or_else (Some m)
                       "An unexpected error occurred during exam generation.");
      generatedExam := None;
      showApiKeyPrompt := if Js.includes m "API key might be invalid"
                          then true else showApiKeyPrompt s;
      examHtmlRef := examHtmlRef s |},
   t' ++ [ConsoleError "Failed to generate exam:" err]).
Proof.
  intros Himgs Hs Hm. unfold generateExam.
  cbn [setError setLoading setGeneratedExam uploadedImages settings].
  destruct (uploadedImages s) as [|file files] eqn:Eimgs; [contradiction|].
  cbn [length Nat.eqb]. rewrite Hs, Hm.
  destruct (Js.includes m "API key might be invalid"); state_eq Eimgs.
Qed.

Lemma handler_on_no_message (s : State) (t t' : Trace) (err : Thrown) :
  uploadedImages s <> [] ->
  service (uploadedImages s) (settings s) t = (Abrupt err, t') ->
  message_of err = None ->
  generateExam service s t =
  (Abrupt (TypeError "Cannot read properties of undefined (reading 'includes')"),
   {| settings := settings s; uploadedImages := uploadedImages s;
      loading := false; error := None; generatedExam := None;
      showApiKeyPrompt := showApiKeyPrompt s; examHtmlRef := examHtmlRef s |},
   t' ++ [ConsoleError "Failed to generate exam:" err]).
Proof.
  intros Himgs Hs Hm. unfold generateExam.
  cbn [setError setLoading setGeneratedExam uploadedImages settings].
  destruct (uploadedImages s) as [|file files] eqn:Eimgs; [contradiction|].
  cbn [length Nat.eqb]. rewrite Hs, Hm. state_eq Eimgs.
Qed.

(** X12. A selection replaces the one before: after two selections (dropped or
    picked), [generateExam] hands the service the files of the last one
    only. *)
Theorem last_selection_is_sent (s : State) (t : Trace) (first last : list File) :
  last <> [] ->
  uploadedImages (handleImageUpload (Some last) (handleDrop (Some first) s)) = last /\
  uploadedImages (handleDrop (Some last) (handleImageUpload (Some first) s)) = last /\
  exists rest,
    snd (generateExam service (handleImageUpload (Some last) (handleDrop (Some first) s)) t)
      = snd (service last (settings s) t) ++ rest.
Proof.
  intros H. split; [reflexivity|]. split; [reflexivity|].
  destruct (AppFacts.generateExam_calls_service service
              (handleImageUpload (Some last) (handleDrop (Some first) s)) t)
    as [rest Hrest]; [exact H|].
  exists rest. exact Hrest.
Qed.

(** X13. After [clearImages], the file input is emptied, the Generate button is
    disabled, and [generateExam] shows the upload message without calling
    the service and leaves nothing to print. *)
Theorem clear_then_generate (s : State) (d : Document) (t : Trace) :
  let cleared := fst (clearImages s d) in
  let after := snd (fst (generateExam service cleared t)) in
  image_upload_value (snd (clearImages s d))
    = option_map (fun _ => EmptyString) (image_upload_value d) /\
  generateDisabled cleared = true /\
  snd (generateExam service cleared t) = t /\
  error after = Some "Please upload at least one image." /\
  printExam after = [].
Proof.
  unfold clearImages. destruct (image_upload_value d) as [v|] eqn:Ev; cbn.
  - repeat split. apply orb_true_r.
  - rewrite Ev. repeat split. apply orb_true_r.
Qed.

(** X14. When the Generate button is enabled, nothing is loading and a click
    calls the service with the uploaded images and the current settings. *)
Theorem enabled_button_calls_service (s : State) (t : Trace) :
  generateDisabled s = false ->
  loading s = false /\
  exists rest,
    snd (generateExam service s t)
      = snd (service (uploadedImages s) (settings s) t) ++ rest.
Proof.
  unfold generateDisabled. intros H.
  apply orb_false_iff in H. destruct H as [Hl Hn].
  split; [exact Hl|].
  apply AppFacts.generateExam_calls_service.
  intros E. rewrite E in Hn. discriminate Hn.
Qed.

End WithService.

(** *** The component with the service of [geminiService.ts] *)

Section EndToEnd.

Import GeminiService EncoderFacts PipelineFacts.

Variable host : Host.

(** X15. Without a key, a click on Generate shows the message of
    [getGeminiClient]; the key prompt is left as it was, and the host sees
    nothing but the console line of the handler. *)
Theorem missing_key_is_shown (s : State) (t : Trace) :
  uploadedImages s <> [] ->
  Js.truthy (API_KEY host) = false ->
  generateExam (analyzeImagesAndGenerateQuestions host) s t =
  (Normal tt,
   {| settings := settings s; uploadedImages := uploadedImages s;
      loading := false;
      error := Some "API_KEY is not defined in the environment variables.";
      generatedExam := None;
      showApiKeyPrompt := showApiKeyPrompt s;
      examHtmlRef := examHtmlRef s |},
   t ++ [ConsoleError "Failed to generate exam:"
           (Error "API_KEY is not defined in the environment variables.")]).
Proof.
  intros Himgs Hkey.
  assert (Hrun : analyzeImagesAndGenerateQuestions host (uploadedImages s) (settings s) t
                 = (Abrupt (Error "API_KEY is not defined in the environment variables."), t)).
  { unfold analyzeImagesAndGenerateQuestions, bind, getGeminiClient.
    rewrite Hkey. reflexivity. }
  rewrite (handler_on_message _ s t _ _ _ Himgs Hrun eq_refl).
  reflexivity.
Qed.

(** X16. When a read fails, the service throws the reader's event, which has no
    [message]: the handler fails with a [TypeError] while reading it, and
    the user gets no error message; the failure only reaches the console. *)
Theorem read_error_is_not_shown (s : State) (t : Trace) :
  Js.truthy (API_KEY host) = true ->
  (exists i r ev,
      nth_error (reads host t (uploadedImages s)) i = Some r /\ outcome r = OnError ev) ->
  exists reason ev after,
    generateExam (analyzeImagesAndGenerateQuestions host) s t =
    (Abrupt (TypeError reason), after,
     t ++ map ReadAsDataURL (uploadedImages s)
       ++ [ConsoleError "Failed to generate exam:" (ReaderEvent ev)]) /\
    error after = None /\ generatedExam after = None /\ loading after = false.
Proof.
  intros Hkey Hfail.
  assert (Himgs : uploadedImages s <> []).
  { destruct Hfail as (i & r & ev & Hi & _). intros E. rewrite E in Hi.
    destruct i; discriminate Hi. }
  destruct (encodeImages_first_error host _ t Hfail) as (i & r & ev & _ & _ & _ & Henc).
  assert (Hrun : analyzeImagesAndGenerateQuestions host (uploadedImages s) (settings s) t
                 = (Abrupt (ReaderEvent ev), t ++ map ReadAsDataURL (uploadedImages s))).
  { unfold analyzeImagesAndGenerateQuestions, bind.
    rewrite (getGeminiClient_ok host t Hkey), Henc. reflexivity. }
  eexists _, ev, _. split.
  - rewrite (handler_on_no_message _ s t _ _ Himgs Hrun eq_refl).
    rewrite <- app_assoc. reflexivity.
  - repeat split.
Qed.

(** X17. When the analysis call is rejected, the user sees "Failed to analyze
    images. Please try again." and the key prompt is left as it was. *)
Theorem analysis_failure_is_shown (s : State) (t : Trace)
    (imageParts : list ImagePart) (t1 : Trace) (e : Thrown) :
  uploadedImages s <> [] ->
  Js.truthy (API_KEY host) = true ->
  encodeImages host (uploadedImages s) t = (Normal imageParts, t1) ->
  analysisAnswer host (settings s) imageParts t1 = Abrupt e ->
  exists t',
    generateExam (analyzeImagesAndGenerateQuestions host) s t =
    (Normal tt,
     {| settings := settings s; uploadedImages := uploadedImages s;
        loading := false;
        error := Some "Failed to analyze images. Please try again.";
        generatedExam := None;
        showApiKeyPrompt := showApiKeyPrompt s;
        examHtmlRef := examHtmlRef s |},
     t').
Proof.
  intros Himgs Hkey Henc Ha.
  pose proof (pipeline_run host (settings s) _ t imageParts t1 Hkey Henc) as Hrun.
  rewrite Ha in Hrun.
  eexists.
  rewrite (handler_on_message _ s t _ _ analysisFailureMessage Himgs Hrun eq_refl).
  reflexivity.
Qed.


(** X19. When the generation call is rejected otherwise, the user sees the
    message of the rejection as it is, or, when it has none, "Failed to
    generate questions. Please check your prompt or try again."; the
    fallback text of the handler is not used. *)
Theorem generation_error_is_shown (s : State) (t : Trace)
    (imageParts : list ImagePart) (t1 : Trace) (r : GenerateContentResponse)
    (e : Thrown) :
  uploadedImages s <> [] ->
  Js.truthy (API_KEY host) = true ->
  encodeImages host (uploadedImages s) t = (Normal imageParts, t1) ->
  analysisAnswer host (settings s) imageParts t1 = Normal r ->
  generationAnswer host (settings s) imageParts t1 r = Abrupt e ->
  (forall m, message_of e = Some m ->
             Js.includes m "Requested entity was not found." = false) ->
  let after := snd (fst (generateExam (analyzeImagesAndGenerateQuestions host) s t)) in
  fst (fst (generateExam (analyzeImagesAndGenerateQuestions host) s t)) = Normal tt /\
  error after =
    Some match message_of e with
         | Some (String c m) => String c m
         | _ => "Failed to generate questions. Please check your prompt or try again."
         end /\
  generatedExam after = None /\
  openSelectKey_calls (snd (generateExam (analyzeImagesAndGenerateQuestions host) s t))
    = openSelectKey_calls t.
Proof.
  intros Himgs Hkey Henc Ha Hg Hnot after. subst after.
  pose proof (encodeImages_trace host (uploadedImages s) t) as Ht.
  rewrite Henc in Ht. cbn [snd] in Ht.
  pose proof (pipeline_run host (settings s) _ t imageParts t1 Hkey Henc) as Hrun.
  rewrite Ha, Hg, (entity_not_found_false e Hnot) in Hrun.
  rewrite (handler_on_message _ s t _ _ _ Himgs Hrun eq_refl).
  cbn [fst snd error generatedExam]. split; [reflexivity|]. split; [|split].
  - f_equal. destruct (message_of e) as [[|c m]|]; reflexivity.
  - reflexivity.
  - unfold uptoGeneration. subst t1.
    rewrite !openSelectKey_calls_app, openSelectKey_calls_reads.
    unfold openSelectKey_calls. simpl. lia.
Qed.

(** X20. When both calls are fulfilled, the exam on display holds the text of
    the generation response as it came, [undefined] included, and no error
    is shown. *)
Theorem generated_text_is_displayed (s : State) (t : Trace)
    (imageParts : list ImagePart) (t1 : Trace) (r g : GenerateContentResponse) :
  uploadedImages s <> [] ->
  Js.truthy (API_KEY host) = true ->
  encodeImages host (uploadedImages s) t = (Normal imageParts, t1) ->
  analysisAnswer host (settings s) imageParts t1 = Normal r ->
  generationAnswer host (settings s) imageParts t1 r = Normal g ->
  generateExam (analyzeImagesAndGenerateQuestions host) s t =
  (Normal tt,
   {| settings := settings s; uploadedImages := uploadedImages s;
      loading := false; error := None;
      generatedExam := Some {| htmlContent := text g |};
      showApiKeyPrompt := showApiKeyPrompt s;
      examHtmlRef := text g |},
   uptoGeneration (settings s) imageParts t1 r ++ [Settled (Normal g)]).
Proof.
  intros Himgs Hkey Henc Ha Hg.
  apply handler_on_return; [exact Himgs|].
  rewrite (pipeline_run host (settings s) _ t imageParts t1 Hkey Henc), Ha, Hg.
  reflexivity.
Qed.

End EndToEnd.

Import GeminiService Samples.

(** The handler on the sample hosts. *)
Example click_goodHost :
  generatedExam (snd (fst (generateExam (analyzeImagesAndGenerateQuestions goodHost)
                             shownState [])))
    = Some {| htmlContent := Some "## Multiple Choice Questions (MCQs)" |}.
Proof. vm_compute. reflexivity. Qed.

Example click_pickyHost :
  let after := snd (fst (generateExam (analyzeImagesAndGenerateQuestions pickyHost)
                           shownState [])) in
  error after = None /\ generatedExam after = None /\ printExam after = [].
Proof. vm_compute. repeat split. Qed.

Lemma print_only_fresh_exam_witness :
  printExam (snd (fst (generateExam (analyzeImagesAndGenerateQuestions goodHost)
                         readyState []))) = [Print].
Proof.
  apply (print_only_fresh_exam (analyzeImagesAndGenerateQuestions goodHost) readyState []).
  split; [discriminate|].
  exists (Some "## Multiple Choice Questions (MCQs)"),
         (snd (analyzeImagesAndGenerateQuestions goodHost [page1] initialSettings [])).
  repeat split.
Defined.

Lemma last_selection_is_sent_witness :
  uploadedImages (handleImageUpload (Some [page2]) (handleDrop (Some [page1]) emptyState))
    = [page2] /\
  uploadedImages (handleDrop (Some [page2]) (handleImageUpload (Some [page1]) emptyState))
    = [page2] /\
  exists rest,
    snd (generateExam (analyzeImagesAndGenerateQuestions goodHost)
           (handleImageUpload (Some [page2]) (handleDrop (Some [page1]) emptyState)) [])
      = snd (analyzeImagesAndGenerateQuestions goodHost [page2] (settings emptyState) [])
          ++ rest.
Proof.
  apply (last_selection_is_sent (analyzeImagesAndGenerateQuestions goodHost)
           emptyState [] [page1] [page2]).
  discriminate.
Defined.

Lemma enabled_button_calls_service_witness :
  loading readyState = false /\
  exists rest,
    snd (generateExam (analyzeImagesAndGenerateQuestions goodHost) readyState [])
      = snd (analyzeImagesAndGenerateQuestions goodHost
               (uploadedImages readyState) (settings readyState) []) ++ rest.
Proof.
  apply (enabled_button_calls_service (analyzeImagesAndGenerateQuestions goodHost)
           readyState []).
  reflexivity.
Defined.

Lemma missing_key_is_shown_witness :
  generateExam (analyzeImagesAndGenerateQuestions noKeyHost) shownState [] =
  (Normal tt,
   {| settings := settings shownState; uploadedImages := uploadedImages shownState;
      loading := false;
      error := Some "API_KEY is not defined in the environment variables.";
      generatedExam := None;
      showApiKeyPrompt := showApiKeyPrompt shownState;
      examHtmlRef := examHtmlRef shownState |},
   [] ++ [ConsoleError "Failed to generate exam:"
            (Error "API_KEY is not defined in the environment variables.")]).
Proof.
  apply (missing_key_is_shown noKeyHost shownState []).
  - discriminate.
  - reflexivity.
Defined.

Lemma read_error_is_not_shown_witness :
  exists reason ev after,
    generateExam (analyzeImagesAndGenerateQuestions pickyHost) shownState [] =
    (Abrupt (TypeError reason), after,
     [] ++ map ReadAsDataURL (uploadedImages shownState)
        ++ [ConsoleError "Failed to generate exam:" (ReaderEvent ev)]) /\
    error after = None /\ generatedExam after = None /\ loading after = false.
Proof.
  apply (read_error_is_not_shown pickyHost shownState []).
  - reflexivity.
  - exists 1, (pickyReader [ReadAsDataURL page1] page2), errorEvent.
    split; reflexivity.
Defined.

Lemma analysis_failure_is_shown_witness :
  exists t',
    generateExam (analyzeImagesAndGenerateQuestions analysisDownHost) readyState [] =
    (Normal tt,
     {| settings := settings readyState; uploadedImages := uploadedImages readyState;
        loading := false;
        error := Some "Failed to analyze images. Please try again.";
        generatedExam := None;
        showApiKeyPrompt := showApiKeyPrompt readyState;
        examHtmlRef := examHtmlRef readyState |},
     t').
Proof.
  apply (analysis_failure_is_shown analysisDownHost readyState []
           [partOf page1] [ReadAsDataURL page1] quota).
  - discriminate.
  - reflexivity.
  - reflexivity.
  - reflexivity.
Defined.


Lemma generation_error_is_shown_witness :
  let after := snd (fst (generateExam (analyzeImagesAndGenerateQuestions quotaHost)
                           readyState [])) in
  fst (fst (generateExam (analyzeImagesAndGenerateQuestions quotaHost) readyState []))
    = Normal tt /\
  error after =
    Some match message_of quota with
         | Some (String c m) => String c m
         | _ => "Failed to generate questions. Please check your prompt or try again."
         end /\
  generatedExam after = None /\
  openSelectKey_calls (snd (generateExam (analyzeImagesAndGenerateQuestions quotaHost)
                              readyState []))
    = openSelectKey_calls [].
Proof.
  apply (generation_error_is_shown quotaHost readyState []
           [partOf page1] [ReadAsDataURL page1] summaryResponse quota).
  - discriminate.
  - reflexivity.
  - reflexivity.
  - reflexivity.
  - reflexivity.
  - intros m H. injection H as <-. reflexivity.
Defined.

Lemma generated_text_is_displayed_witness :
  generateExam (analyzeImagesAndGenerateQuestions noTextHost) readyState [] =
  (Normal tt,
   {| settings := settings readyState; uploadedImages := uploadedImages readyState;
      loading := false; error := None;
      generatedExam := Some {| htmlContent := text {| text := None |} |};
      showApiKeyPrompt := showApiKeyPrompt readyState;
      examHtmlRef := text {| text := None |} |},
   uptoGeneration (settings readyState) [partOf page1] [ReadAsDataURL page1] summaryResponse
     ++ [Settled (Normal {| text := None |})]).
Proof.
  apply (generated_text_is_displayed noTextHost readyState []
           [partOf page1] [ReadAsDataURL page1] summaryResponse {| text := None |}).
  - discriminate.
  - reflexivity.
  - reflexivity.
  - reflexivity.
  - reflexivity.
Defined.

End HandlerFacts.
